(** * er-aws-msk: the MSK terraform-plan validators

    A shallow embedding of the two plan validators of the repository,
    [hooks/post_plan.py] (the pipeline hook, with [hooks_lib/aws_api.py])
    and [validate_plan.py] (the standalone script), and the properties of
    the validation rules proved over it.

    A validator method is a function on the validator's state in a small
    state-and-exception monad.  The log lines the methods write have no
    effect on the report and are left out; the calls on the boto3 clients
    are kept as a trace, so that one can tell which rule ran. *)

From Stdlib Require Import String Ascii List Bool Arith Lia.
From stdpp Require Import base option list strings gmap sets.

Local Open Scope string_scope.
Local Open Scope list_scope.

(** ** The Python runtime: dicts, sets, exceptions, the validator's state *)

Module Py.

(** A boto3 response record: a dict with string keys.  Only string-valued
    attributes ([SubnetId], [GroupId], [VpcId], [Version]) are read. *)
Abbreviation Dict := (gmap string string).

(** Exceptions that can leave a validator method. *)
Inductive Exn : Type :=
| KeyError (msg : string)
| IndexError (msg : string)
| SubnetNotFoundError (subnet : string)
| SecurityGroupNotFoundError (sg : string).

(** [str(e)], as the two exception classes of [validate_plan.py] build
    their message in [__init__]. *)
Definition exn_str (e : Exn) : string :=
  match e with
  | KeyError msg => msg
  | IndexError msg => msg
  | SubnetNotFoundError subnet => "Subnet " +:+ subnet +:+ " does not exist"
  | SecurityGroupNotFoundError sg => "Security Group " +:+ sg +:+ " does not exist"
  end.

(** The calls made on the boto3 clients, in order. *)
Inductive Call : Type :=
| DescribeSubnets (ids : list string)
| DescribeSecurityGroups (ids : list string)
| ListKafkaVersions.

(** The mutable part of a validator object: [self.errors], and the trace
    of the client calls made so far. *)
Record State : Type := mkState {
  errors : list string;
  calls : list Call;
}.

Inductive outcome (A : Type) : Type :=
| Ret (a : A)
| Raise (e : Exn).
Arguments Ret {A} a.
Arguments Raise {A} e.

(** A method body: reads and updates the state, and either returns or
    raises.  The state survives a raise, as the object does. *)
Definition M (A : Type) : Type := State -> outcome A * State.

Definition ret {A} (a : A) : M A := fun st => (Ret a, st).

Definition bind {A B} (m : M A) (k : A -> M B) : M B :=
  fun st =>
    match m st with
    | (Ret a, st') => k a st'
    | (Raise e, st') => (Raise e, st')
    end.

Definition raise {A} (e : Exn) : M A := fun st => (Raise e, st).

(** [try: m except handler]: [handler e] is [None] when no [except]
    clause matches [e]. *)
Definition try_except {A} (m : M A) (handler : Exn -> option (M A)) : M A :=
  fun st =>
    match m st with
    | (Ret a, st') => (Ret a, st')
    | (Raise e, st') =>
        match handler e with
        | Some h => h st'
        | None => (Raise e, st')
        end
    end.

(** [self.errors.append(msg)] *)
Definition errors_append (msg : string) : M unit :=
  fun st => (Ret tt, mkState (errors st ++ [msg]) (calls st)).

(** Records a call on a boto3 client. *)
Definition call (c : Call) : M unit :=
  fun st => (Ret tt, mkState (errors st) (calls st ++ [c])).

(** [not self.errors] *)
Definition errors_empty : M bool :=
  fun st => (Ret (match errors st with [] => true | _ => false end), st).

Module Import Notations.
Notation "x <- m ;; k" := (bind m (fun x => k))
  (at level 100, m at next level, right associativity).
Notation "m ;; k" := (bind m (fun _ => k))
  (at level 100, right associativity).
End Notations.

(** [for x in xs: body x], where the body may update a loop-carried
    local [acc]. *)
Fixpoint for_acc {A S} (body : A -> S -> M S) (xs : list A) (acc : S) : M S :=
  match xs with
  | [] => ret acc
  | x :: xs' => acc' <- body x acc ;; for_acc body xs' acc'
  end.

(** [for x in xs: body x] *)
Fixpoint for_each {A} (body : A -> M unit) (xs : list A) : M unit :=
  match xs with
  | [] => ret tt
  | x :: xs' => body x ;; for_each body xs'
  end.

(** What CPython leaves unspecified about [set]: which element
    [set.pop()] hands out, and the order in which [repr] lists the
    elements inside an f-string.  [set_pop] is [None] exactly on the
    empty set, where Python raises [KeyError]. *)
Record SetRuntime : Type := mkSetRuntime {
  set_pop : gset string -> option string;
  set_repr : gset string -> string;
  set_pop_elem : forall s x, set_pop s = Some x -> x ∈ s;
  set_pop_empty : forall s, set_pop s = None -> s = ∅;
}.

(** [vpc_ids.pop()] *)
Definition pop (rt : SetRuntime) (s : gset string) : M string :=
  match set_pop rt s with
  | Some x => ret x
  | None => raise (KeyError "pop from an empty set")
  end.

(** [str(x)] inside an f-string for [x : str | None] *)
Definition fmt_opt (x : option string) : string := default "None" x.

(** Truth value of a [str]: only the empty string is falsy. *)
Definition truthy (x : string) : bool :=
  match x with
  | EmptyString => false
  | String _ _ => true
  end.

(** [xs[0]] *)
Definition index0 {A} (xs : list A) : M A :=
  match xs with
  | x :: _ => ret x
  | [] => raise (IndexError "list index out of range")
  end.

End Py.

Import Py Py.Notations.

(** ** The parsed terraform plan *)

Module Terraform.

(** Modelled from the spec: the plan records of the
    [external_resources_io.terraform] package, which is not part of the
    repository.  A resource change has a resource type, an action set and
    a post-apply attribute map that holds the service version and the
    list of broker placement records, each with its subnet ids and
    security-group ids. *)
Inductive Action : Type :=
| ActionCreate
| ActionUpdate
| ActionDelete
| ActionNoop
| ActionReplace.

#[global] Instance Action_eq_dec : EqDecision Action.
Proof. solve_decision. Defined.

Record BrokerNodeGroupInfo : Type := mkBroker {
  client_subnets : list string;
  security_groups : list string;
}.

(** The post-apply attribute map of a change, with the two keys the
    validators read. *)
Record After : Type := mkAfter {
  kafka_version : string;
  broker_node_group_info : list BrokerNodeGroupInfo;
}.

(** [c.change]; an [after] of [None] stands for an absent or empty
    attribute map, both falsy. *)
Record Change : Type := mkChange {
  actions : list Action;
  after : option After;
}.

Record ResourceChange : Type := mkResourceChange {
  type : string;
  change : option Change;
}.

End Terraform.

Import Terraform.

(** ** The boto3 clients *)

Module Boto.

(** Modelled from the spec: the boto3 clients, which are not part of the
    repository, after the inventory client contract.  A describe call
    returns the records that exist and omits the ids that do not; the
    version listing is a sequence of pages. *)
Record EC2Client : Type := mkEC2 {
  describe_subnets : list string -> list Dict;
  describe_security_groups : list string -> list Dict;
}.

Record KafkaClient : Type := mkKafka {
  list_kafka_versions : list (list Dict);
}.

End Boto.

Import Boto.

(** ** hooks_lib/aws_api.py *)

Module HooksLib.

Record AWSApi : Type := mkAWSApi {
  ec2_client : EC2Client;
  kafka_client : KafkaClient;
}.

Definition get_subnets (self : AWSApi) (subnets : list string) : M (list Dict) :=
  call (DescribeSubnets subnets) ;;
  ret (describe_subnets (ec2_client self) subnets).

Definition get_security_groups (self : AWSApi) (security_groups : list string)
  : M (list Dict) :=
  call (DescribeSecurityGroups security_groups) ;;
  ret (describe_security_groups (ec2_client self) security_groups).

(** The pages are accumulated, then the records that have a [Version]
    key give their version. *)
Definition get_kafka_versions (self : AWSApi) : M (list string) :=
  call ListKafkaVersions ;;
  let versions_data := concat (list_kafka_versions (kafka_client self)) in
  ret (omap (fun v : Dict => v !! "Version") versions_data).

End HooksLib.

(** ** hooks/post_plan.py *)

Module PostPlan.
Import HooksLib.

Definition MIN_SUBNETS : nat := 3.

Definition msk_instance_updates (plan : list ResourceChange) : list ResourceChange :=
  List.filter
    (fun c =>
       String.eqb (type c) "aws_msk_cluster"
       && match change c with
          | Some ch => bool_decide (ActionCreate ∈ actions ch)
          | None => false
          end)
    plan.

(** [set(ids).difference({s.get(key) for s in data})]; a record without
    the key contributes [None], which no requested id equals. *)
Definition missing_ids (key : string) (ids : list string) (data : list Dict)
  : gset string :=
  list_to_set ids ∖ list_to_set (omap (fun s : Dict => s !! key) data).

Definition _validate_subnets (rt : SetRuntime) (self : AWSApi)
    (subnets : list string) : M (option string) :=
  let vpc_ids : gset string := ∅ in
  if (length subnets <? MIN_SUBNETS)%nat then
    errors_append "At least 3 subnets are required" ;;
    ret None
  else
    data <- get_subnets self subnets ;;
    let missing := missing_ids "SubnetId" subnets data in
    if bool_decide (missing ≠ ∅) then
      errors_append ("Subnet(s) " +:+ set_repr rt missing +:+ " not found") ;;
      ret None
    else
      vpc_ids <- for_acc
        (fun (subnet : Dict) (vpc_ids : gset string) =>
           match subnet !! "VpcId" with
           | None =>
               errors_append
                 ("VpcId not found for subnet " +:+ fmt_opt (subnet !! "SubnetId")) ;;
               ret vpc_ids
           | Some v => ret (vpc_ids ∪ {[v]})
           end)
        data vpc_ids ;;
      (if (1 <? size vpc_ids)%nat
       then errors_append "All subnets must belong to the same VPC"
       else ret tt) ;;
      v <- pop rt vpc_ids ;;
      ret (Some v).

Definition _validate_security_groups (rt : SetRuntime) (self : AWSApi)
    (security_groups : list string) (vpc_id : string) : M unit :=
  data <- get_security_groups self security_groups ;;
  let missing := missing_ids "GroupId" security_groups data in
  if bool_decide (missing ≠ ∅) then
    errors_append ("Security group(s) " +:+ set_repr rt missing +:+ " not found")
  else
    for_each
      (fun sg : Dict =>
         if bool_decide (sg !! "VpcId" ≠ Some vpc_id) then
           errors_append
             ("Security group " +:+ fmt_opt (sg !! "GroupId")
              +:+ " does not belong to the same VPC as the subnets")
         else ret tt)
      data.

Definition _validate_kafka_version (self : AWSApi) (kafka_version : string)
  : M unit :=
  available_versions <- get_kafka_versions self ;;
  match available_versions with
  | [] => errors_append "Could not retrieve available Kafka versions from AWS."
  | _ :: _ =>
      if bool_decide (kafka_version ∈ available_versions) then ret tt
      else
        errors_append
          ("Invalid Kafka version: '" +:+ kafka_version +:+ "'. "
           +:+ "Available versions are: " +:+ String.concat ", " available_versions)
  end.

(** One iteration of the loop of [validate]. *)
Definition validate_update (rt : SetRuntime) (self : AWSApi) (u : ResourceChange)
  : M unit :=
  match change u with
  | None => ret tt
  | Some ch =>
      match after ch with
      | None => ret tt
      | Some a =>
          _validate_kafka_version self (kafka_version a) ;;
          b <- index0 (broker_node_group_info a) ;;
          vpc_id <- _validate_subnets rt self (client_subnets b) ;;
          match vpc_id with
          | Some v =>
              if truthy v
              then _validate_security_groups rt self (security_groups b) v
              else ret tt
          | None => ret tt
          end
      end
  end.

Definition validate (rt : SetRuntime) (self : AWSApi) (plan : list ResourceChange)
  : M bool :=
  for_each (validate_update rt self) (msk_instance_updates plan) ;;
  errors_empty.

End PostPlan.

(** ** validate_plan.py *)

Module ValidatePlan.

(** The script's own [AWSApi]: one lookup per id, a missing record
    signalled by an exception. *)
Record AWSApi : Type := mkAWSApi {
  ec2_client : EC2Client;
}.

Definition get_subnet (self : AWSApi) (subnet : string) : M Dict :=
  call (DescribeSubnets [subnet]) ;;
  match describe_subnets (ec2_client self) [subnet] with
  | [] => raise (SubnetNotFoundError subnet)
  | d :: _ => ret d
  end.

Definition get_security_group (self : AWSApi) (subnet : string) : M Dict :=
  call (DescribeSecurityGroups [subnet]) ;;
  match describe_security_groups (ec2_client self) [subnet] with
  | [] => raise (SubnetNotFoundError subnet)
  | d :: _ => ret d
  end.

Definition msk_instance_updates (plan : list ResourceChange) : list ResourceChange :=
  List.filter
    (fun c =>
       String.eqb (type c) "aws_msk_cluster"
       && match change c with
          | Some ch => bool_decide (ActionCreate ∈ actions ch)
          | None => false
          end)
    plan.

Definition _validate_subnets (rt : SetRuntime) (self : AWSApi)
    (subnets : list string) : M (option string) :=
  let vpc_ids : gset string := ∅ in
  if (length subnets <? 3)%nat then
    errors_append "At least 3 subnets are required" ;;
    ret None
  else
    vpc_ids <- for_acc
      (fun (subnet : string) (vpc_ids : gset string) =>
         try_except
           (data <- get_subnet self subnet ;;
            match data !! "VpcId" with
            | None =>
                errors_append ("VpcId not found for subnet " +:+ subnet) ;;
                ret vpc_ids
            | Some v => ret (vpc_ids ∪ {[v]})
            end)
           (fun e =>
              match e with
              | SubnetNotFoundError _ =>
                  Some (errors_append (exn_str e) ;; ret vpc_ids)
              | _ => None
              end))
      subnets vpc_ids ;;
    (if (1 <? size vpc_ids)%nat
     then errors_append "All subnets must belong to the same VPC"
     else ret tt) ;;
    v <- pop rt vpc_ids ;;
    ret (Some v).

Definition _validate_security_groups (self : AWSApi)
    (security_groups : list string) (vpc_id : string) : M unit :=
  for_each
    (fun sg : string =>
       try_except
         (data <- get_security_group self sg ;;
          match data !! "VpcId" with
          | None => errors_append ("VpcId not found for security group " +:+ sg)
          | Some v =>
              if bool_decide (v ≠ vpc_id) then
                errors_append
                  ("Security group " +:+ sg
                   +:+ " does not belong to the same VPC as the subnets")
              else ret tt
          end)
         (fun e =>
            match e with
            | SecurityGroupNotFoundError _ => Some (errors_append (exn_str e))
            | _ => None
            end))
    security_groups.

(** One iteration of the loop of [validate]. *)
Definition validate_update (rt : SetRuntime) (self : AWSApi) (u : ResourceChange)
  : M unit :=
  match change u with
  | None => ret tt
  | Some ch =>
      match after ch with
      | None => ret tt
      | Some a =>
          b <- index0 (broker_node_group_info a) ;;
          vpc_id <- _validate_subnets rt self (client_subnets b) ;;
          match vpc_id with
          | Some v =>
              if truthy v
              then _validate_security_groups self (security_groups b) v
              else ret tt
          | None => ret tt
          end
      end
  end.

Definition validate (rt : SetRuntime) (self : AWSApi) (plan : list ResourceChange)
  : M bool :=
  for_each (validate_update rt self) (msk_instance_updates plan) ;;
  errors_empty.

End ValidatePlan.

(** ** A cloud inventory behind the clients *)

Module Inventory.

(** Modelled from the spec: the inventory records of the data model (a
    subnet or security group has an id and an optional owning VPC id) and
    the client contract (a describe call returns the records that exist
    among the requested ids and omits the others). *)
Record Inventory : Type := mkInventory {
  subnets : gmap string (option string);
  groups : gmap string (option string);
  versions : list string;
}.

Definition record (key id : string) (vpc : option string) : Dict :=
  match vpc with
  | Some v => <["VpcId" := v]> {[key := id]}
  | None => {[key := id]}
  end.

Definition describe (key : string) (db : gmap string (option string))
    (ids : list string) : list Dict :=
  (fun p : string * option string => record key p.1 p.2)
    <$> filter (fun p : string * option string => p.1 ∈ ids) (map_to_list db).

Definition ec2 (inv : Inventory) : EC2Client :=
  mkEC2 (describe "SubnetId" (subnets inv)) (describe "GroupId" (groups inv)).

Definition kafka (inv : Inventory) : KafkaClient :=
  mkKafka [(fun v : string => ({["Version" := v]} : Dict)) <$> versions inv].

(** The owning VPC id of [id], when [id] exists and has one. *)
Definition vpc_of (db : gmap string (option string)) (id : string)
  : option string :=
  mjoin (db !! id).

(** The VPC ids owning the ids of a list. *)
Definition vpcs (db : gmap string (option string)) (ids : list string)
  : gset string :=
  list_to_set (omap (vpc_of db) ids).

(** Every subnet and security-group id a change refers to exists with a
    VPC id, and its version is in the supported listing. *)
Definition resolvable (inv : Inventory) (u : ResourceChange) : Prop :=
  match change u with
  | None => True
  | Some ch =>
      match after ch with
      | None => True
      | Some a =>
          kafka_version a ∈ versions inv
          /\ match broker_node_group_info a with
             | [] => True
             | b :: _ =>
                 Forall (fun id => is_Some (vpc_of (subnets inv) id))
                   (client_subnets b)
                 /\ Forall (fun id => is_Some (vpc_of (groups inv) id))
                      (security_groups b)
             end
      end
  end.

#[global] Instance resolvable_dec (inv : Inventory) (u : ResourceChange) :
  Decision (resolvable inv u).
Proof.
  unfold resolvable. destruct (change u) as [ch|]; [|apply _].
  destruct (after ch) as [a|]; [|apply _].
  destruct (broker_node_group_info a); apply _.
Defined.

Definition hook_api (inv : Inventory) : HooksLib.AWSApi :=
  HooksLib.mkAWSApi (ec2 inv) (kafka inv).

Definition script_api (inv : Inventory) : ValidatePlan.AWSApi :=
  ValidatePlan.mkAWSApi (ec2 inv).

End Inventory.

(** The state of a freshly constructed validator. *)
Definition st0 : State := mkState [] [].

(** ** What the loops of the rules compute *)

Module Summary.

(** The VPC ids carried by a list of records. *)
Definition vpcs_of (data : list Dict) : gset string :=
  list_to_set (omap (fun r : Dict => r !! "VpcId") data).

(** The same-VPC violation, when more than one VPC id was collected. *)
Definition same_vpc_error (vpc_ids : gset string) : list string :=
  if (1 <? size vpc_ids)%nat
  then ["All subnets must belong to the same VPC"]
  else [].

(** What [vpc_ids.pop()] followed by [return] yields. *)
Definition popped (rt : SetRuntime) (vpc_ids : gset string)
  : outcome (option string) :=
  match set_pop rt vpc_ids with
  | Some v => Ret (Some v)
  | None => Raise (KeyError "pop from an empty set")
  end.

(** Hook, subnet rule: the violations of the loop over the records. *)
Definition hook_subnet_errors (data : list Dict) : list string :=
  omap (fun r : Dict =>
          match r !! "VpcId" with
          | None => Some ("VpcId not found for subnet " +:+ fmt_opt (r !! "SubnetId"))
          | Some _ => None
          end) data.

Definition hook_group_error (r : Dict) : string :=
  "Security group " +:+ fmt_opt (r !! "GroupId")
  +:+ " does not belong to the same VPC as the subnets".

(** Hook, security-group rule: the violations of the loop over the
    records. *)
Definition hook_group_errors (vpc_id : string) (data : list Dict) : list string :=
  omap (fun r : Dict =>
          if bool_decide (r !! "VpcId" ≠ Some vpc_id)
          then Some (hook_group_error r) else None) data.

(** Hook, version rule: the two violations. *)
Definition retrieval_error : string :=
  "Could not retrieve available Kafka versions from AWS.".

Definition invalid_version_error (kafka_version : string)
    (available_versions : list string) : string :=
  "Invalid Kafka version: '" +:+ kafka_version +:+ "'. "
  +:+ "Available versions are: " +:+ String.concat ", " available_versions.

(** Script: the record a single-id lookup yields, if any. *)
Definition lookup_subnet (ec2 : EC2Client) (id : string) : option Dict :=
  head (describe_subnets ec2 [id]).

Definition lookup_group (ec2 : EC2Client) (id : string) : option Dict :=
  head (describe_security_groups ec2 [id]).

(** Script, subnet rule: the violation of one iteration. *)
Definition script_subnet_error (ec2 : EC2Client) (id : string) : option string :=
  match lookup_subnet ec2 id with
  | None => Some ("Subnet " +:+ id +:+ " does not exist")
  | Some r =>
      match r !! "VpcId" with
      | None => Some ("VpcId not found for subnet " +:+ id)
      | Some _ => None
      end
  end.

(** Script, subnet rule: the VPC ids the loop collects. *)
Definition script_vpcs (ec2 : EC2Client) (ids : list string) : gset string :=
  vpcs_of (omap (lookup_subnet ec2) ids).

(** Script, security-group rule: the violation of one iteration over a
    group that resolves. *)
Definition script_group_error (vpc_id id : string) (r : Dict) : option string :=
  match r !! "VpcId" with
  | None => Some ("VpcId not found for security group " +:+ id)
  | Some v =>
      if bool_decide (v ≠ vpc_id)
      then Some ("Security group " +:+ id
                 +:+ " does not belong to the same VPC as the subnets")
      else None
  end.

(** Script, security-group rule: the violations of the loop when every
    group resolves. *)
Definition script_group_errors (ec2 : EC2Client) (vpc_id : string)
    (ids : list string) : list string :=
  omap (fun id => lookup_group ec2 id ≫= script_group_error vpc_id id) ids.

(** Two validator states agree when their reports are both empty or both
    non-empty. *)
Definition agree (a b : State) : Prop := errors a = [] <-> errors b = [].

(** Two runs agree when both return in agreeing states or both raise the
    same exception. *)
Definition same_outcome (x y : outcome unit * State) : Prop :=
  match x, y with
  | (Ret _, a), (Ret _, b) => agree a b
  | (Raise e, _), (Raise e', _) => e = e'
  | _, _ => False
  end.

End Summary.

Import Summary.

(** ** Concrete inventories and plans *)

Module Examples.
Import Inventory.

Definition inv : Inventory :=
  mkInventory
    (list_to_map
       [("subnet-a", Some "vpc-1"); ("subnet-b", Some "vpc-1");
        ("subnet-c", Some "vpc-1"); ("subnet-x", Some "vpc-2");
        ("subnet-n1", None); ("subnet-n2", None); ("subnet-n3", None)])
    (list_to_map
       [("sg-1", Some "vpc-1"); ("sg-2", Some "vpc-2"); ("sg-n", None)])
    ["2.8.1"; "3.6.0"].

(** The same inventory when the version listing comes back empty. *)
Definition inv_no_versions : Inventory :=
  mkInventory (subnets inv) (groups inv) [].

Definition placement (subnets groups : list string) : BrokerNodeGroupInfo :=
  mkBroker subnets groups.

Definition attributes (version : string) (subnets groups : list string) : After :=
  mkAfter version [placement subnets groups].

Definition creation (version : string) (subnets groups : list string) : Change :=
  mkChange [ActionCreate] (Some (attributes version subnets groups)).

Definition create_cluster (version : string) (subnets groups : list string)
  : ResourceChange :=
  mkResourceChange "aws_msk_cluster" (Some (creation version subnets groups)).

Definition two_of_three : list string := ["subnet-a"; "subnet-b"; "subnet-gone"].

Definition two_vpcs : list string := ["subnet-a"; "subnet-b"; "subnet-x"].

Definition no_vpc : list string := ["subnet-n1"; "subnet-n2"; "subnet-n3"].

Definition one_vpc : list string := ["subnet-a"; "subnet-b"; "subnet-c"].

(** A plan that mixes a matching change whose ids all resolve, a
    matching change with a security group of another VPC, a change of
    another resource type and a deletion. *)
Definition plan : list ResourceChange :=
  [create_cluster "2.8.1" one_vpc ["sg-1"];
   mkResourceChange "aws_security_group"
     (Some (mkChange [ActionCreate] (Some (attributes "0" [] ["sg-gone"]))));
   create_cluster "3.6.0" two_vpcs ["sg-1"; "sg-2"];
   mkResourceChange "aws_msk_cluster" (Some (mkChange [ActionDelete] None))].

End Examples.

(** ** One admissible set runtime *)

Module Runtime.

(** [repr] of a set of plain identifiers, elements in the order of
    [elements]. *)
Definition repr_set (s : gset string) : string :=
  match elements s with
  | [] => "set()"
  | xs => "{" +:+ String.concat ", " ((fun x => "'" +:+ x +:+ "'") <$> xs) +:+ "}"
  end.

Lemma head_elements_elem (s : gset string) (x : string) :
  head (elements s) = Some x -> x ∈ s.
Proof.
  intros H. apply elem_of_elements. destruct (elements s); simplify_eq/=.
  left.
Qed.

Lemma head_elements_empty (s : gset string) :
  head (elements s) = None -> s = ∅.
Proof.
  intros H. apply leibniz_equiv, elements_empty_iff.
  destruct (elements s); simplify_eq/=. reflexivity.
Qed.

(** The runtime that pops the first element of [elements]. *)
Definition first_elem : SetRuntime :=
  mkSetRuntime (fun s => head (elements s)) repr_set
    head_elements_elem head_elements_empty.

End Runtime.

(** ** Effects of a method and acceptable changes *)

Module Accept.

(** [m] returns or raises [o] after appending [es] to the report and [cs]
    to the call trace, whatever the state it starts from. *)
Definition writes {A} (m : M A) (o : outcome A) (es : list string)
    (cs : list Call) : Prop :=
  forall st, m st = (o, mkState (errors st ++ es) (calls st ++ cs)).

(** [m] only appends to the report and the trace, what it appends and what
    it returns do not depend on the state, and an exception it raises
    satisfies [P]. *)
Definition behaves {A} (P : Exn -> Prop) (m : M A) : Prop :=
  exists o es cs,
    writes m o es cs
    /\ match o with
       | Raise e => P e
       | Ret _ => True
       end.

(** The exceptions that can leave the hook. *)
Definition hook_exn (e : Exn) : Prop :=
  e = KeyError "pop from an empty set" \/ e = IndexError "list index out of range".

(** The exceptions that can leave the script. *)
Definition script_exn (e : Exn) : Prop :=
  hook_exn e \/ exists id, e = SubnetNotFoundError id.

(** A change the extractor keeps. *)
Definition matching (u : ResourceChange) : Prop :=
  type u = "aws_msk_cluster"
  /\ exists ch, change u = Some ch /\ ActionCreate ∈ actions ch.

(** The versions [get_kafka_versions] reads off a sequence of pages. *)
Definition versions_of (pages : list (list Dict)) : list string :=
  omap (fun v : Dict => v !! "Version") (concat pages).

(** The attribute maps the hook passes without a violation: the version is
    in the listing; there are at least 3 subnet ids, each of them is
    returned, every returned record has a VPC id and these ids are one
    and the same [v]; and, unless [v] is the empty string, every
    security-group id is returned and every returned record has VPC id
    [v]. *)
Definition hook_accepts (self : HooksLib.AWSApi) (a : After) : Prop :=
  kafka_version a
    ∈ versions_of (list_kafka_versions (HooksLib.kafka_client self))
  /\ match broker_node_group_info a with
     | [] => False
     | b :: _ =>
         let data := describe_subnets (HooksLib.ec2_client self) (client_subnets b) in
         let sgs :=
           describe_security_groups (HooksLib.ec2_client self) (security_groups b) in
         3 <= length (client_subnets b)
         /\ PostPlan.missing_ids "SubnetId" (client_subnets b) data = ∅
         /\ Forall (fun r : Dict => is_Some (r !! "VpcId")) data
         /\ exists v,
              vpcs_of data = {[v]}
              /\ (v ≠ "" ->
                  PostPlan.missing_ids "GroupId" (security_groups b) sgs = ∅
                  /\ Forall (fun r : Dict => r !! "VpcId" = Some v) sgs)
     end.

(** The attribute maps the script passes without a violation: there are at
    least 3 subnet ids, each resolves to a record with a VPC id and these
    ids are one and the same [v]; and, unless [v] is the empty string,
    every security-group id resolves to a record with VPC id [v]. *)
Definition script_accepts (self : ValidatePlan.AWSApi) (a : After) : Prop :=
  match broker_node_group_info a with
  | [] => False
  | b :: _ =>
      let ec2 := ValidatePlan.ec2_client self in
      3 <= length (client_subnets b)
      /\ Forall (fun id => exists r, lookup_subnet ec2 id = Some r
                                   /\ is_Some (r !! "VpcId")) (client_subnets b)
      /\ exists v,
           script_vpcs ec2 (client_subnets b) = {[v]}
           /\ (v ≠ "" ->
               Forall (fun id => exists r, lookup_group ec2 id = Some r
                                           /\ r !! "VpcId" = Some v)
                 (security_groups b))
  end.

End Accept.

Import Accept.

(** ** Basic facts *)

Section Basics.

Lemma state_eta (st : State) : mkState (errors st) (calls st) = st.
Proof. by destruct st. Qed.

Lemma set_pop_of_empty (rt : SetRuntime) : set_pop rt ∅ = None.
Proof.
  destruct (set_pop rt ∅) as [x|] eqn:E; [|done].
  apply set_pop_elem in E. set_solver.
Qed.

Lemma set_pop_nonempty (rt : SetRuntime) (s : gset string) :
  s ≠ ∅ -> exists v, set_pop rt s = Some v /\ v ∈ s.
Proof.
  intros Hs. destruct (set_pop rt s) as [x|] eqn:E.
  - exists x. split; [done|]. by apply set_pop_elem in E.
  - by apply set_pop_empty in E.
Qed.

Lemma set_pop_singleton (rt : SetRuntime) (v : string) :
  set_pop rt {[v]} = Some v.
Proof.
  destruct (set_pop_nonempty rt {[v]}) as (x & E & Hx); [set_solver|].
  rewrite E. f_equal. set_solver.
Qed.

Lemma vpcs_of_cons_some (r : Dict) (v : string) (data : list Dict) :
  r !! "VpcId" = Some v -> vpcs_of (r :: data) = {[v]} ∪ vpcs_of data.
Proof. intros H. unfold vpcs_of. simpl. by rewrite H. Qed.

Lemma vpcs_of_cons_none (r : Dict) (data : list Dict) :
  r !! "VpcId" = None -> vpcs_of (r :: data) = vpcs_of data.
Proof. intros H. unfold vpcs_of. simpl. by rewrite H. Qed.

Lemma elem_of_vpcs_of (v : string) (data : list Dict) :
  v ∈ vpcs_of data <-> exists r, r ∈ data /\ r !! "VpcId" = Some v.
Proof.
  unfold vpcs_of. rewrite elem_of_list_to_set, list_elem_of_omap. naive_solver.
Qed.

End Basics.

(** ** The pipeline hook, rule by rule *)

Section Hook.
Import HooksLib PostPlan.
Variable rt : SetRuntime.
Variable self : AWSApi.

Let data_of (ids : list string) : list Dict :=
  describe_subnets (ec2_client self) ids.

Lemma hook_subnet_loop (data : list Dict) (acc : gset string) (st : State) :
  for_acc
    (fun (subnet : Dict) (vpc_ids : gset string) =>
       match subnet !! "VpcId" with
       | None =>
           errors_append
             ("VpcId not found for subnet " +:+ fmt_opt (subnet !! "SubnetId")) ;;
           ret vpc_ids
       | Some v => ret (vpc_ids ∪ {[v]})
       end) data acc st
  = (Ret (acc ∪ vpcs_of data),
     mkState (errors st ++ hook_subnet_errors data) (calls st)).
Proof.
  revert acc st. induction data as [|r data IH]; intros acc st.
  - cbn. unfold vpcs_of. cbn. rewrite app_nil_r, state_eta.
    by rewrite (right_id_L ∅ (∪)).
  - cbn [for_acc]. unfold bind at 1. destruct (r !! "VpcId") as [v|] eqn:E.
    + unfold ret at 1. rewrite IH. rewrite (vpcs_of_cons_some _ _ _ E).
      unfold hook_subnet_errors. cbn [omap list_omap]. rewrite E.
      by rewrite (assoc_L (∪)).
    + unfold bind at 1, errors_append, ret at 1. rewrite IH.
      rewrite (vpcs_of_cons_none _ _ E).
      unfold hook_subnet_errors. cbn [omap list_omap]. rewrite E. cbn.
      by rewrite <- app_assoc.
Qed.

Lemma hook_subnets_short (subnets : list string) (st : State) :
  length subnets < 3 ->
  _validate_subnets rt self subnets st
  = (Ret None,
     mkState (errors st ++ ["At least 3 subnets are required"]) (calls st)).
Proof.
  intros Hlen. unfold _validate_subnets, MIN_SUBNETS.
  destruct (Nat.ltb_spec (length subnets) 3); [|lia]. reflexivity.
Qed.

Lemma hook_subnets_missing (subnets : list string) (st : State) :
  3 <= length subnets ->
  missing_ids "SubnetId" subnets (data_of subnets) ≠ ∅ ->
  _validate_subnets rt self subnets st
  = (Ret None,
     mkState
       (errors st
        ++ ["Subnet(s) "
            +:+ set_repr rt (missing_ids "SubnetId" subnets (data_of subnets))
            +:+ " not found"])
       (calls st ++ [DescribeSubnets subnets])).
Proof.
  intros Hlen Hmiss. unfold _validate_subnets, MIN_SUBNETS.
  destruct (Nat.ltb_spec (length subnets) 3); [lia|].
  unfold get_subnets, bind at 1 2, call, ret at 1. cbn [errors calls].
  rewrite bool_decide_eq_true_2 by exact Hmiss. reflexivity.
Qed.

Lemma hook_subnets_resolved (subnets : list string) (st : State) :
  3 <= length subnets ->
  missing_ids "SubnetId" subnets (data_of subnets) = ∅ ->
  _validate_subnets rt self subnets st
  = (popped rt (vpcs_of (data_of subnets)),
     mkState
       (errors st ++ hook_subnet_errors (data_of subnets)
        ++ same_vpc_error (vpcs_of (data_of subnets)))
       (calls st ++ [DescribeSubnets subnets])).
Proof.
  intros Hlen Hmiss. unfold _validate_subnets, MIN_SUBNETS.
  destruct (Nat.ltb_spec (length subnets) 3); [lia|].
  unfold get_subnets, bind at 1 2, call, ret at 1. cbn [errors calls].
  rewrite bool_decide_eq_false_2 by (intros Hne; by apply Hne).
  unfold bind at 1. rewrite hook_subnet_loop. cbn [errors calls].
  rewrite (left_id_L ∅ (∪)). fold (data_of subnets).
  unfold same_vpc_error, popped, pop.
  destruct (1 <? size (vpcs_of (data_of subnets)))%nat;
    unfold bind, errors_append, ret, raise; cbn [errors calls];
    destruct (set_pop rt (vpcs_of (data_of subnets)));
    rewrite <- ?app_assoc, ?app_nil_r; reflexivity.
Qed.

Lemma hook_group_loop (vpc_id : string) (data : list Dict) (st : State) :
  for_each
    (fun sg : Dict =>
       if bool_decide (sg !! "VpcId" ≠ Some vpc_id) then
         errors_append
           ("Security group " +:+ fmt_opt (sg !! "GroupId")
            +:+ " does not belong to the same VPC as the subnets")
       else ret tt) data st
  = (Ret tt, mkState (errors st ++ hook_group_errors vpc_id data) (calls st)).
Proof.
  revert st. induction data as [|r data IH]; intros st.
  - cbn. by rewrite app_nil_r, state_eta.
  - cbn [for_each]. unfold bind at 1, hook_group_errors.
    cbn [omap list_omap]. case_bool_decide.
    + unfold errors_append at 1. rewrite IH. cbn.
      by rewrite <- app_assoc.
    + unfold ret at 1. by rewrite IH.
Qed.

Lemma hook_groups_missing (groups : list string) (vpc_id : string) (st : State) :
  missing_ids "GroupId" groups (describe_security_groups (ec2_client self) groups)
    ≠ ∅ ->
  _validate_security_groups rt self groups vpc_id st
  = (Ret tt,
     mkState
       (errors st
        ++ ["Security group(s) "
            +:+ set_repr rt
                  (missing_ids "GroupId" groups
                     (describe_security_groups (ec2_client self) groups))
            +:+ " not found"])
       (calls st ++ [DescribeSecurityGroups groups])).
Proof.
  intros Hmiss. unfold _validate_security_groups, get_security_groups.
  unfold bind at 1 2, call, ret at 1. cbn [errors calls].
  by rewrite bool_decide_eq_true_2.
Qed.

Lemma hook_groups_resolved (groups : list string) (vpc_id : string) (st : State) :
  missing_ids "GroupId" groups (describe_security_groups (ec2_client self) groups)
    = ∅ ->
  _validate_security_groups rt self groups vpc_id st
  = (Ret tt,
     mkState
       (errors st
        ++ hook_group_errors vpc_id
             (describe_security_groups (ec2_client self) groups))
       (calls st ++ [DescribeSecurityGroups groups])).
Proof.
  intros Hmiss. unfold _validate_security_groups, get_security_groups.
  unfold bind at 1 2, call, ret at 1. cbn [errors calls].
  rewrite bool_decide_eq_false_2 by (intros Hne; by apply Hne).
  by rewrite hook_group_loop.
Qed.


Lemma get_kafka_versions_run (st : State) :
  get_kafka_versions self st
  = (Ret (omap (fun v : Dict => v !! "Version")
            (concat (list_kafka_versions (kafka_client self)))),
     mkState (errors st) (calls st ++ [ListKafkaVersions])).
Proof. reflexivity. Qed.

Lemma hook_version_member (v : string) (vs : list string) (st : State) :
  fst (get_kafka_versions self st) = Ret vs ->
  v ∈ vs ->
  _validate_kafka_version self v st
  = (Ret tt, mkState (errors st) (calls st ++ [ListKafkaVersions])).
Proof.
  intros Hvs Hin. unfold _validate_kafka_version, bind.
  rewrite get_kafka_versions_run in *. cbn in Hvs. injection Hvs as ->.
  destruct vs as [|w vs]; [by apply elem_of_nil in Hin|].
  by rewrite bool_decide_eq_true_2.
Qed.


Lemma msk_instance_updates_single (u : ResourceChange) (ch : Change) :
  type u = "aws_msk_cluster" ->
  change u = Some ch ->
  ActionCreate ∈ actions ch ->
  msk_instance_updates [u] = [u].
Proof.
  intros Hty Hch Hact. unfold msk_instance_updates. cbn.
  rewrite Hty, Hch. cbn. by rewrite bool_decide_eq_true_2.
Qed.

End Hook.

(** ** The standalone script, rule by rule *)

Section Script.
Import ValidatePlan.
Variable rt : SetRuntime.
Variable self : AWSApi.

Local Abbreviation ec2 := (ec2_client self).

(** One iteration of the subnet loop: the [try] block with its handler. *)
Lemma script_subnet_iter (subnet : string) (acc : gset string) (st : State) :
  try_except
    (data <- get_subnet self subnet ;;
     match data !! "VpcId" with
     | None =>
         errors_append ("VpcId not found for subnet " +:+ subnet) ;;
         ret acc
     | Some v => ret (acc ∪ {[v]})
     end)
    (fun e =>
       match e with
       | SubnetNotFoundError _ => Some (errors_append (exn_str e) ;; ret acc)
       | _ => None
       end) st
  = (Ret (acc ∪ script_vpcs ec2 [subnet]),
     mkState (errors st ++ option_list (script_subnet_error ec2 subnet))
       (calls st ++ [DescribeSubnets [subnet]])).
Proof.
  unfold try_except, get_subnet, script_vpcs, script_subnet_error, lookup_subnet.
  unfold bind at 1 2, call. cbn [omap list_omap].
  destruct (describe_subnets ec2 [subnet]) as [|d ds]; cbn.
  - by rewrite (right_id_L ∅ (∪)).
  - destruct (d !! "VpcId") as [v|] eqn:E; cbn.
    + by rewrite app_nil_r, (right_id_L ∅ (∪)).
    + by rewrite (right_id_L ∅ (∪)).
Qed.

Lemma script_vpcs_cons (subnet : string) (subnets : list string) :
  script_vpcs ec2 (subnet :: subnets)
  = script_vpcs ec2 [subnet] ∪ script_vpcs ec2 subnets.
Proof.
  unfold script_vpcs. cbn [omap list_omap].
  destruct (lookup_subnet ec2 subnet) as [d|]; cbn [omap list_omap].
  - destruct (d !! "VpcId") as [v|] eqn:E.
    + rewrite !(vpcs_of_cons_some _ _ _ E). unfold vpcs_of at 2. cbn.
      by rewrite (right_id_L ∅ (∪)).
    + rewrite !(vpcs_of_cons_none _ _ E). unfold vpcs_of at 2. cbn.
      by rewrite (left_id_L ∅ (∪)).
  - unfold vpcs_of at 2. cbn. by rewrite (left_id_L ∅ (∪)).
Qed.

Lemma script_subnet_loop (subnets : list string) (acc : gset string) (st : State) :
  for_acc
    (fun (subnet : string) (vpc_ids : gset string) =>
       try_except
         (data <- get_subnet self subnet ;;
          match data !! "VpcId" with
          | None =>
              errors_append ("VpcId not found for subnet " +:+ subnet) ;;
              ret vpc_ids
          | Some v => ret (vpc_ids ∪ {[v]})
          end)
         (fun e =>
            match e with
            | SubnetNotFoundError _ =>
                Some (errors_append (exn_str e) ;; ret vpc_ids)
            | _ => None
            end)) subnets acc st
  = (Ret (acc ∪ script_vpcs ec2 subnets),
     mkState (errors st ++ omap (script_subnet_error ec2) subnets)
       (calls st ++ ((fun id => DescribeSubnets [id]) <$> subnets))).
Proof.
  revert acc st. induction subnets as [|x subnets IH]; intros acc st.
  - cbn. unfold script_vpcs, vpcs_of. cbn.
    by rewrite !app_nil_r, state_eta, (right_id_L ∅ (∪)).
  - cbn [for_acc]. unfold bind at 1. rewrite script_subnet_iter, IH.
    cbn [errors calls]. rewrite (script_vpcs_cons x subnets), (assoc_L (∪)).
    cbn [omap list_omap fmap list_fmap].
    rewrite <- !app_assoc.
    by destruct (script_subnet_error ec2 x).
Qed.

Lemma script_subnets_short (subnets : list string) (st : State) :
  length subnets < 3 ->
  _validate_subnets rt self subnets st
  = (Ret None,
     mkState (errors st ++ ["At least 3 subnets are required"]) (calls st)).
Proof.
  intros Hlen. unfold _validate_subnets.
  destruct (Nat.ltb_spec (length subnets) 3); [|lia]. reflexivity.
Qed.

Lemma script_subnets_long (subnets : list string) (st : State) :
  3 <= length subnets ->
  _validate_subnets rt self subnets st
  = (popped rt (script_vpcs ec2 subnets),
     mkState
       (errors st ++ omap (script_subnet_error ec2) subnets
        ++ same_vpc_error (script_vpcs ec2 subnets))
       (calls st ++ ((fun id => DescribeSubnets [id]) <$> subnets))).
Proof.
  intros Hlen. unfold _validate_subnets.
  destruct (Nat.ltb_spec (length subnets) 3); [lia|].
  unfold bind at 1. rewrite script_subnet_loop. cbn [errors calls].
  rewrite (left_id_L ∅ (∪)).
  unfold same_vpc_error, popped, pop.
  destruct (1 <? size (script_vpcs ec2 subnets))%nat;
    unfold bind, errors_append, ret, raise; cbn [errors calls];
    destruct (set_pop rt (script_vpcs ec2 subnets));
    rewrite <- ?app_assoc, ?app_nil_r; reflexivity.
Qed.

(** One iteration of the security-group loop over a group that
    resolves. *)
Lemma script_group_iter_found (vpc_id sg : string) (r : Dict) (st : State) :
  lookup_group ec2 sg = Some r ->
  try_except
    (data <- get_security_group self sg ;;
     match data !! "VpcId" with
     | None => errors_append ("VpcId not found for security group " +:+ sg)
     | Some v =>
         if bool_decide (v ≠ vpc_id) then
           errors_append
             ("Security group " +:+ sg
              +:+ " does not belong to the same VPC as the subnets")
         else ret tt
     end)
    (fun e =>
       match e with
       | SecurityGroupNotFoundError _ => Some (errors_append (exn_str e))
       | _ => None
       end) st
  = (Ret tt,
     mkState (errors st ++ option_list (script_group_error vpc_id sg r))
       (calls st ++ [DescribeSecurityGroups [sg]])).
Proof.
  unfold lookup_group, try_except, get_security_group, script_group_error.
  unfold bind, call. intros Hr.
  destruct (describe_security_groups ec2 [sg]) as [|d ds]; [done|].
  cbn in Hr. injection Hr as ->. cbn.
  destruct (r !! "VpcId") as [v|]; [|done].
  case_bool_decide; cbn; [done|]. by rewrite app_nil_r.
Qed.

(** One iteration over a group that does not resolve: the exception
    raised by [get_security_group] is not the one the handler catches. *)
Lemma script_group_iter_missing (vpc_id sg : string) (st : State) :
  lookup_group ec2 sg = None ->
  try_except
    (data <- get_security_group self sg ;;
     match data !! "VpcId" with
     | None => errors_append ("VpcId not found for security group " +:+ sg)
     | Some v =>
         if bool_decide (v ≠ vpc_id) then
           errors_append
             ("Security group " +:+ sg
              +:+ " does not belong to the same VPC as the subnets")
         else ret tt
     end)
    (fun e =>
       match e with
       | SecurityGroupNotFoundError _ => Some (errors_append (exn_str e))
       | _ => None
       end) st
  = (Raise (SubnetNotFoundError sg),
     mkState (errors st) (calls st ++ [DescribeSecurityGroups [sg]])).
Proof.
  unfold lookup_group, try_except, get_security_group.
  unfold bind, call. intros Hr.
  destruct (describe_security_groups ec2 [sg]) as [|d ds]; [done|].
  discriminate Hr.
Qed.

Lemma script_groups_resolved (vpc_id : string) (groups : list string) (st : State) :
  (forall sg, sg ∈ groups -> is_Some (lookup_group ec2 sg)) ->
  _validate_security_groups self groups vpc_id st
  = (Ret tt,
     mkState (errors st ++ script_group_errors ec2 vpc_id groups)
       (calls st ++ ((fun id => DescribeSecurityGroups [id]) <$> groups))).
Proof.
  unfold _validate_security_groups. revert st.
  induction groups as [|g groups IH]; intros st Hall.
  - cbn. by rewrite !app_nil_r, state_eta.
  - destruct (Hall g) as [r Hr]; [left|].
    cbn [for_each]. unfold bind at 1.
    rewrite (script_group_iter_found _ _ _ _ Hr).
    rewrite IH by (intros sg Hsg; apply Hall; by right).
    cbn [errors calls]. unfold script_group_errors.
    cbn [omap list_omap fmap list_fmap]. rewrite Hr. cbn [mbind option_bind].
    rewrite <- !app_assoc.
    by destruct (script_group_error vpc_id g r).
Qed.

Lemma script_groups_first_missing (vpc_id sg : string)
    (before rest : list string) (st : State) :
  (forall g, g ∈ before -> is_Some (lookup_group ec2 g)) ->
  lookup_group ec2 sg = None ->
  _validate_security_groups self (before ++ sg :: rest) vpc_id st
  = (Raise (SubnetNotFoundError sg),
     mkState (errors st ++ script_group_errors ec2 vpc_id before)
       (calls st
        ++ ((fun id => DescribeSecurityGroups [id]) <$> (before ++ [sg])%list))).
Proof.
  unfold _validate_security_groups. revert st.
  induction before as [|g before IH]; intros st Hall Hsg.
  - cbn [app for_each]. unfold bind at 1.
    rewrite (script_group_iter_missing _ _ _ Hsg). cbn.
    by rewrite app_nil_r.
  - destruct (Hall g) as [r Hr]; [left|].
    cbn [app for_each]. unfold bind at 1.
    rewrite (script_group_iter_found _ _ _ _ Hr).
    rewrite IH by (try done; intros g' Hg'; apply Hall; by right).
    cbn [errors calls]. unfold script_group_errors.
    cbn [omap list_omap fmap list_fmap app]. rewrite Hr. cbn [mbind option_bind].
    rewrite <- !app_assoc.
    by destruct (script_group_error vpc_id g r).
Qed.

End Script.

(** ** The version rule *)

Section VersionRule.
Import HooksLib PostPlan.

(** C5: when the supported-version listing comes back empty, the version
    rule appends exactly one violation, the retrieval failure, whatever
    the proposed version is; that entry is never an invalid-version
    violation. *)
Theorem version_rule_empty_listing
    (self : AWSApi) (kafka_version : string) (st : State) :
  fst (get_kafka_versions self st) = Ret [] ->
  _validate_kafka_version self kafka_version st
  = (Ret tt,
     mkState (errors st ++ [retrieval_error]) (calls st ++ [ListKafkaVersions]))
  /\ (forall v vs, retrieval_error ≠ invalid_version_error v vs).
Proof.
  intros Hvs. split.
  - unfold _validate_kafka_version, bind.
    rewrite get_kafka_versions_run in *. cbn in Hvs. injection Hvs as ->.
    reflexivity.
  - intros v vs H. discriminate H.
Qed.

Lemma version_rule_empty_listing_witness :
  fst (get_kafka_versions (Inventory.hook_api Examples.inv_no_versions) st0)
  = Ret []
  /\ (_validate_kafka_version (Inventory.hook_api Examples.inv_no_versions)
        "2.8.1" st0
      = (Ret tt, mkState ([] ++ [retrieval_error]) ([] ++ [ListKafkaVersions]))
      /\ (forall v vs, retrieval_error ≠ invalid_version_error v vs)).
Proof.
  split; [reflexivity|].
  apply (version_rule_empty_listing
           (Inventory.hook_api Examples.inv_no_versions) "2.8.1" st0).
  reflexivity.
Defined.

(** C8: against a non-empty supported-version listing, a proposed version
    outside it gets exactly one violation, which quotes the proposed
    version and lists the supported versions joined by a comma and a
    space in the order of the listing; a proposed version inside it gets
    none. *)
Theorem version_rule_membership
    (self : AWSApi) (kafka_version : string) (vs : list string) (st : State) :
  fst (get_kafka_versions self st) = Ret vs ->
  vs ≠ [] ->
  (kafka_version ∉ vs ->
   _validate_kafka_version self kafka_version st
   = (Ret tt,
      mkState
        (errors st
         ++ ["Invalid Kafka version: '" +:+ kafka_version
             +:+ "'. Available versions are: " +:+ String.concat ", " vs])
        (calls st ++ [ListKafkaVersions])))
  /\ (kafka_version ∈ vs ->
      _validate_kafka_version self kafka_version st
      = (Ret tt, mkState (errors st) (calls st ++ [ListKafkaVersions]))).
Proof.
  intros Hvs Hne. split; intros Hin.
  - unfold _validate_kafka_version, bind.
    rewrite get_kafka_versions_run in *. cbn in Hvs. injection Hvs as ->.
    destruct vs as [|w vs]; [done|].
    rewrite bool_decide_eq_false_2 by done.
    reflexivity.
  - by apply hook_version_member with vs.
Qed.

Lemma version_rule_membership_witness :
  fst (get_kafka_versions (Inventory.hook_api Examples.inv) st0)
  = Ret ["2.8.1"; "3.6.0"]
  /\ ["2.8.1"; "3.6.0"] ≠ []
  /\ _validate_kafka_version (Inventory.hook_api Examples.inv) "99.99.99" st0
     = (Ret tt,
        mkState
          ["Invalid Kafka version: '99.99.99'. Available versions are: 2.8.1, 3.6.0"]
          [ListKafkaVersions])
  /\ _validate_kafka_version (Inventory.hook_api Examples.inv) "3.6.0" st0
     = (Ret tt, mkState [] [ListKafkaVersions]).
Proof.
  pose proof (version_rule_membership (Inventory.hook_api Examples.inv)
                "99.99.99" ["2.8.1"; "3.6.0"] st0 eq_refl) as H1.
  pose proof (version_rule_membership (Inventory.hook_api Examples.inv)
                "3.6.0" ["2.8.1"; "3.6.0"] st0 eq_refl) as H2.
  split; [reflexivity|]. split; [discriminate|]. split.
  - apply H1; [discriminate|].
    apply (bool_decide_unpack _). vm_compute. exact I.
  - apply H2; [discriminate|].
    apply (bool_decide_unpack _). vm_compute. exact I.
Defined.

End VersionRule.

(** ** The orchestration of the hook *)

Section HookValidate.
Import HooksLib PostPlan.
Variable rt : SetRuntime.
Variable self : AWSApi.

(** C6: for a plan made of one matching change whose subnet list has
    fewer than 3 ids and whose version is in the supported listing, a
    fresh validator returns false with exactly one report entry, the
    subnet-count violation; the only client call made is the version
    listing, so the security-group rule did not run. *)
Theorem short_subnet_list_only_count_violation
    (u : ResourceChange) (ch : Change) (a : After)
    (b : BrokerNodeGroupInfo) (rest : list BrokerNodeGroupInfo)
    (vs : list string) :
  type u = "aws_msk_cluster" ->
  change u = Some ch ->
  ActionCreate ∈ actions ch ->
  after ch = Some a ->
  broker_node_group_info a = b :: rest ->
  length (client_subnets b) < 3 ->
  fst (get_kafka_versions self st0) = Ret vs ->
  kafka_version a ∈ vs ->
  validate rt self [u] st0
  = (Ret false,
     mkState ["At least 3 subnets are required"] [ListKafkaVersions]).
Proof.
  intros Hty Hch Hact Haf Hb Hlen Hvs Hin. unfold validate.
  rewrite (msk_instance_updates_single u ch Hty Hch Hact).
  cbn [for_each]. unfold bind at 1 2, validate_update. rewrite Hch, Haf.
  unfold bind at 1. rewrite (hook_version_member self _ vs st0 Hvs Hin).
  rewrite Hb. unfold index0, bind at 1, ret at 1.
  unfold bind at 1. rewrite (hook_subnets_short rt self _ _ Hlen).
  reflexivity.
Qed.


End HookValidate.

Lemma short_subnet_list_only_count_violation_witness :
  PostPlan.validate Runtime.first_elem (Inventory.hook_api Examples.inv)
    [Examples.create_cluster "2.8.1" ["subnet-a"; "subnet-b"] ["sg-2"; "sg-gone"]]
    st0
  = (Ret false, mkState ["At least 3 subnets are required"] [ListKafkaVersions]).
Proof.
  apply (short_subnet_list_only_count_violation
           Runtime.first_elem (Inventory.hook_api Examples.inv)
           (Examples.create_cluster "2.8.1" ["subnet-a"; "subnet-b"]
              ["sg-2"; "sg-gone"])
           (Examples.creation "2.8.1" ["subnet-a"; "subnet-b"] ["sg-2"; "sg-gone"])
           (Examples.attributes "2.8.1" ["subnet-a"; "subnet-b"] ["sg-2"; "sg-gone"])
           (Examples.placement ["subnet-a"; "subnet-b"] ["sg-2"; "sg-gone"])
           [] ["2.8.1"; "3.6.0"]).
  - reflexivity.
  - reflexivity.
  - apply (bool_decide_unpack _). vm_compute. exact I.
  - reflexivity.
  - reflexivity.
  - simpl. lia.
  - reflexivity.
  - apply (bool_decide_unpack _). vm_compute. exact I.
Defined.


(** ** The subnet rule on records without a VPC id *)

Section EmptyVpcSet.
Variable rt : SetRuntime.

Lemma vpcs_of_none (data : list Dict) :
  Forall (fun r : Dict => r !! "VpcId" = None) data -> vpcs_of data = ∅.
Proof.
  induction 1 as [|r data Hr _ IH]; [done|].
  by rewrite (vpcs_of_cons_none _ _ Hr).
Qed.

Lemma popped_empty : popped rt ∅ = Raise (KeyError "pop from an empty set").
Proof. unfold popped. by rewrite set_pop_of_empty. Qed.

(** C1, on the code: when at least 3 subnets are requested, none is
    missing from the response and every returned record lacks a VPC id,
    the subnet rule of the hook does not return absent: popping the
    empty set of VPC ids raises [KeyError], after one per-record
    violation for each record. *)
Theorem hook_subnets_without_vpc_raise
    (self : HooksLib.AWSApi) (subnets : list string) (st : State) :
  let data := describe_subnets (HooksLib.ec2_client self) subnets in
  3 <= length subnets ->
  PostPlan.missing_ids "SubnetId" subnets data = ∅ ->
  Forall (fun r : Dict => r !! "VpcId" = None) data ->
  PostPlan._validate_subnets rt self subnets st
  = (Raise (KeyError "pop from an empty set"),
     mkState (errors st ++ hook_subnet_errors data)
       (calls st ++ [DescribeSubnets subnets])).
Proof.
  intros data Hlen Hmiss Hnone.
  rewrite (hook_subnets_resolved rt self _ st Hlen Hmiss). fold data.
  rewrite (vpcs_of_none _ Hnone), popped_empty.
  unfold same_vpc_error. rewrite size_empty. cbn. by rewrite app_nil_r.
Qed.

(** The script's subnet rule raises in the same way, and also when no
    requested id resolves at all. *)
Lemma script_subnets_without_vpc_raise
    (self : ValidatePlan.AWSApi) (subnets : list string) (st : State) :
  3 <= length subnets ->
  Forall (fun id => forall r,
            lookup_subnet (ValidatePlan.ec2_client self) id = Some r ->
            r !! "VpcId" = None) subnets ->
  fst (ValidatePlan._validate_subnets rt self subnets st)
  = Raise (KeyError "pop from an empty set").
Proof.
  intros Hlen Hnone. rewrite (script_subnets_long rt self _ st Hlen). cbn [fst].
  replace (script_vpcs (ValidatePlan.ec2_client self) subnets) with (∅ : gset string);
    [apply popped_empty|].
  symmetry. apply vpcs_of_none. apply Forall_forall. intros r Hr.
  apply list_elem_of_omap in Hr as (id & Hid & Hlk).
  rewrite Forall_forall in Hnone. by apply (Hnone id Hid).
Qed.

(** The exception leaves [validate]: the hook on a plan whose three
    subnets exist without a VPC id. *)
Lemma hook_validate_without_vpc_raises :
  fst (PostPlan.validate rt (Inventory.hook_api Examples.inv)
         [Examples.create_cluster "2.8.1"
            ["subnet-n1"; "subnet-n2"; "subnet-n3"] ["sg-1"]] st0)
  = Raise (KeyError "pop from an empty set").
Proof.
  unfold PostPlan.validate.
  rewrite (msk_instance_updates_single _
             (Examples.creation "2.8.1"
                ["subnet-n1"; "subnet-n2"; "subnet-n3"] ["sg-1"]))
    by (try reflexivity; cbn; left).
  cbn [for_each]. unfold bind at 1 2, PostPlan.validate_update. cbn [change Examples.create_cluster
    after Examples.creation Examples.attributes kafka_version
    broker_node_group_info].
  unfold bind at 1.
  rewrite (hook_version_member (Inventory.hook_api Examples.inv)
             "2.8.1" ["2.8.1"; "3.6.0"] st0 eq_refl)
    by (apply (bool_decide_unpack _); vm_compute; exact I).
  unfold index0, bind at 1, ret at 1. unfold bind at 1.
  cbn [client_subnets Examples.placement].
  rewrite hook_subnets_resolved; [|simpl; lia|by vm_compute].
  rewrite vpcs_of_none, popped_empty; [done|].
  apply (bool_decide_unpack _). vm_compute. exact I.
Qed.

End EmptyVpcSet.

Lemma hook_subnets_without_vpc_raise_witness :
  PostPlan._validate_subnets Runtime.first_elem (Inventory.hook_api Examples.inv)
    ["subnet-n1"; "subnet-n2"; "subnet-n3"] st0
  = (Raise (KeyError "pop from an empty set"),
     mkState
       ([] ++ hook_subnet_errors
                (describe_subnets (Inventory.ec2 Examples.inv)
                   ["subnet-n1"; "subnet-n2"; "subnet-n3"]))
       ([] ++ [DescribeSubnets ["subnet-n1"; "subnet-n2"; "subnet-n3"]])).
Proof.
  apply (hook_subnets_without_vpc_raise Runtime.first_elem
           (Inventory.hook_api Examples.inv)
           ["subnet-n1"; "subnet-n2"; "subnet-n3"] st0).
  - simpl. lia.
  - vm_compute. reflexivity.
  - apply (bool_decide_unpack _). vm_compute. exact I.
Defined.

(** ** Requested ids that are absent from the inventory *)

Section MissingIds.
Variable rt : SetRuntime.
Variable hook : HooksLib.AWSApi.
Variable script : ValidatePlan.AWSApi.

(** C3, as the code has it: with at least 3 requested ids, the hook,
    when some of them are absent from the response, appends exactly one
    violation that lists the missing ids and returns absent at once,
    without any of the later steps; the script appends one violation for
    every requested id that does not resolve or whose record lacks a VPC
    id, then the same-VPC violation if it collected more than one VPC
    id, and returns the VPC id when exactly one was collected. *)
Theorem subnets_partly_missing (subnets : list string) (st : State) :
  3 <= length subnets ->
  (let data := describe_subnets (HooksLib.ec2_client hook) subnets in
   PostPlan.missing_ids "SubnetId" subnets data ≠ ∅ ->
   PostPlan._validate_subnets rt hook subnets st
   = (Ret None,
      mkState
        (errors st
         ++ ["Subnet(s) "
             +:+ set_repr rt (PostPlan.missing_ids "SubnetId" subnets data)
             +:+ " not found"])
        (calls st ++ [DescribeSubnets subnets])))
  /\ (let ec2 := ValidatePlan.ec2_client script in
      let res := ValidatePlan._validate_subnets rt script subnets st in
      errors (snd res)
      = errors st
        ++ omap (fun id =>
                   match head (describe_subnets ec2 [id]) with
                   | None => Some ("Subnet " +:+ id +:+ " does not exist")
                   | Some r =>
                       match r !! "VpcId" with
                       | None => Some ("VpcId not found for subnet " +:+ id)
                       | Some _ => None
                       end
                   end) subnets
        ++ same_vpc_error (script_vpcs ec2 subnets)
      /\ forall v, script_vpcs ec2 subnets = {[v]} -> fst res = Ret (Some v)).
Proof.
  intros Hlen. split.
  - intros data Hmiss. by apply hook_subnets_missing.
  - intros ec2 res. subst res. rewrite (script_subnets_long rt script _ st Hlen).
    cbn [fst snd errors]. split; [done|].
    intros v Hv. subst ec2. rewrite Hv. unfold popped.
    by rewrite set_pop_singleton.
Qed.

(** C4, as the code has it: for a resolved security-group record that
    lacks a VPC attribute, the script appends a violation about the
    missing attribute and keeps the mismatch violation for a present VPC
    id that differs from the supplied one; the hook appends for such a
    record the mismatch violation itself. *)
Theorem group_without_vpc_attribute
    (vpc_id : string) (st : State) :
  (forall (groups : list string) (d1 d2 : list Dict) (r : Dict),
      let data := describe_security_groups (HooksLib.ec2_client hook) groups in
      PostPlan.missing_ids "GroupId" groups data = ∅ ->
      data = d1 ++ r :: d2 ->
      r !! "VpcId" = None ->
      errors (snd (PostPlan._validate_security_groups rt hook groups vpc_id st))
      = errors st ++ hook_group_errors vpc_id d1
        ++ ["Security group " +:+ fmt_opt (r !! "GroupId")
            +:+ " does not belong to the same VPC as the subnets"]
        ++ hook_group_errors vpc_id d2)
  /\ (forall (before rest : list string) (sg : string) (r : Dict),
        let ec2 := ValidatePlan.ec2_client script in
        (forall g, g ∈ before ++ sg :: rest -> is_Some (lookup_group ec2 g)) ->
        lookup_group ec2 sg = Some r ->
        errors (snd (ValidatePlan._validate_security_groups script
                       (before ++ sg :: rest) vpc_id st))
        = errors st ++ script_group_errors ec2 vpc_id before
          ++ match r !! "VpcId" with
             | None => ["VpcId not found for security group " +:+ sg]
             | Some v =>
                 if bool_decide (v ≠ vpc_id)
                 then ["Security group " +:+ sg
                       +:+ " does not belong to the same VPC as the subnets"]
                 else []
             end
          ++ script_group_errors ec2 vpc_id rest).
Proof.
  split.
  - intros groups d1 d2 r data Hmiss Hdata Hr.
    rewrite (hook_groups_resolved rt hook _ _ st Hmiss). cbn [snd errors].
    fold data. rewrite Hdata. unfold hook_group_errors.
    rewrite omap_app. cbn [omap list_omap]. rewrite Hr.
    rewrite bool_decide_eq_true_2 by done. reflexivity.
  - intros before rest sg r ec2 Hall Hr.
    rewrite (script_groups_resolved script vpc_id _ st Hall). cbn [snd errors].
    unfold script_group_errors. rewrite omap_app. cbn [omap list_omap].
    fold ec2. rewrite Hr. cbn [mbind option_bind]. unfold script_group_error.
    destruct (r !! "VpcId") as [v|]; [|done].
    by case_bool_decide.
Qed.

End MissingIds.

Lemma subnets_partly_missing_witness :
  PostPlan._validate_subnets Runtime.first_elem (Inventory.hook_api Examples.inv)
    Examples.two_of_three st0
  = (Ret None,
     mkState ["Subnet(s) {'subnet-gone'} not found"] [DescribeSubnets Examples.two_of_three])
  /\ errors (snd (ValidatePlan._validate_subnets Runtime.first_elem
                    (Inventory.script_api Examples.inv) Examples.two_of_three st0))
     = ["Subnet subnet-gone does not exist"]
  /\ fst (ValidatePlan._validate_subnets Runtime.first_elem
            (Inventory.script_api Examples.inv) Examples.two_of_three st0)
     = Ret (Some "vpc-1").
Proof.
  destruct (subnets_partly_missing Runtime.first_elem
              (Inventory.hook_api Examples.inv)
              (Inventory.script_api Examples.inv) Examples.two_of_three st0)
    as [Hhook [Herrs Hret]].
  - simpl. lia.
  - split; [|split].
    + apply Hhook. vm_compute. discriminate.
    + exact Herrs.
    + apply Hret. vm_compute. reflexivity.
Defined.

(** C3, as stated, fails on the hook: two of the three requested subnets
    resolve, both in [vpc-1], yet the rule returns absent after the
    missing-ids violation instead of the common VPC id. *)
Lemma hook_subnets_partly_missing_returns_absent :
  3 <= length Examples.two_of_three
  /\ PostPlan.missing_ids "SubnetId" Examples.two_of_three
       (describe_subnets (Inventory.ec2 Examples.inv) Examples.two_of_three)
     = {["subnet-gone"]}
  /\ vpcs_of (describe_subnets (Inventory.ec2 Examples.inv) Examples.two_of_three)
     = {["vpc-1"]}
  /\ PostPlan._validate_subnets Runtime.first_elem (Inventory.hook_api Examples.inv)
       Examples.two_of_three st0
     = (Ret None,
        mkState ["Subnet(s) {'subnet-gone'} not found"] [DescribeSubnets Examples.two_of_three])
  /\ fst (PostPlan._validate_subnets Runtime.first_elem
            (Inventory.hook_api Examples.inv) Examples.two_of_three st0)
     ≠ Ret (Some "vpc-1").
Proof.
  split; [simpl; lia|].
  split; [vm_compute; reflexivity|].
  split; [vm_compute; reflexivity|].
  split; [vm_compute; reflexivity|].
  vm_compute. discriminate.
Qed.

Lemma group_without_vpc_attribute_witness :
  errors (snd (PostPlan._validate_security_groups Runtime.first_elem
                 (Inventory.hook_api Examples.inv) ["sg-1"; "sg-n"] "vpc-1" st0))
  = ["Security group sg-n does not belong to the same VPC as the subnets"]
  /\ errors (snd (ValidatePlan._validate_security_groups
                    (Inventory.script_api Examples.inv)
                    ["sg-1"; "sg-n"; "sg-2"] "vpc-1" st0))
     = ["VpcId not found for security group sg-n";
        "Security group sg-2 does not belong to the same VPC as the subnets"].
Proof.
  destruct (group_without_vpc_attribute Runtime.first_elem
              (Inventory.hook_api Examples.inv)
              (Inventory.script_api Examples.inv) "vpc-1" st0)
    as [Hhook Hscript].
  split.
  - apply (Hhook ["sg-1"; "sg-n"]
             [Inventory.record "GroupId" "sg-1" (Some "vpc-1")]
             [] (Inventory.record "GroupId" "sg-n" None)).
    + vm_compute. reflexivity.
    + vm_compute. reflexivity.
    + vm_compute. reflexivity.
  - apply (Hscript ["sg-1"] ["sg-2"] "sg-n"
             (Inventory.record "GroupId" "sg-n" None)).
    + apply Forall_forall. apply (bool_decide_unpack _). vm_compute. exact I.
    + vm_compute. reflexivity.
Defined.

(** C4, as stated, fails on the hook: the record of [sg-n] has no VPC
    attribute, and the one violation appended for it is the mismatch
    violation. *)
Lemma hook_group_without_vpc_gets_mismatch :
  describe_security_groups (Inventory.ec2 Examples.inv) ["sg-n"]
  = [{["GroupId" := "sg-n"]}]
  /\ ({["GroupId" := "sg-n"]} : Dict) !! "VpcId" = None
  /\ PostPlan._validate_security_groups Runtime.first_elem
       (Inventory.hook_api Examples.inv) ["sg-n"] "vpc-1" st0
     = (Ret tt,
        mkState
          ["Security group sg-n does not belong to the same VPC as the subnets"]
          [DescribeSecurityGroups ["sg-n"]])
  /\ "VpcId not found for security group sg-n"
     ∉ errors (snd (PostPlan._validate_security_groups Runtime.first_elem
                      (Inventory.hook_api Examples.inv) ["sg-n"] "vpc-1" st0)).
Proof.
  split; [vm_compute; reflexivity|].
  split; [vm_compute; reflexivity|].
  split; [vm_compute; reflexivity|].
  apply (bool_decide_unpack _). vm_compute. exact I.
Qed.

(** ** A missing security group in the script *)

Section ScriptMissingGroup.
Variable rt : SetRuntime.

Lemma script_msk_instance_updates_single (u : ResourceChange) (ch : Change) :
  type u = "aws_msk_cluster" ->
  change u = Some ch ->
  ActionCreate ∈ actions ch ->
  ValidatePlan.msk_instance_updates [u] = [u].
Proof.
  intros Hty Hch Hact. unfold ValidatePlan.msk_instance_updates. cbn.
  rewrite Hty, Hch. cbn. by rewrite bool_decide_eq_true_2.
Qed.

(** C2, on the code: the script, on a plan whose three subnets exist in
    one VPC and whose only security group is absent from the inventory,
    does not return from [validate]: [get_security_group] raises
    [SubnetNotFoundError], which the handler for
    [SecurityGroupNotFoundError] does not catch, and the report stays
    empty. *)
Theorem script_missing_group_escapes_validate :
  ValidatePlan.validate rt (Inventory.script_api Examples.inv)
    [Examples.create_cluster "2.8.1" Examples.one_vpc ["sg-gone"]] st0
  = (Raise (SubnetNotFoundError "sg-gone"),
     mkState []
       [DescribeSubnets ["subnet-a"]; DescribeSubnets ["subnet-b"];
        DescribeSubnets ["subnet-c"]; DescribeSecurityGroups ["sg-gone"]]).
Proof.
  unfold ValidatePlan.validate.
  rewrite (script_msk_instance_updates_single _
             (Examples.creation "2.8.1" Examples.one_vpc ["sg-gone"]))
    by (try reflexivity; cbn; left).
  cbn [for_each]. unfold bind at 1 2, ValidatePlan.validate_update.
  cbn [change Examples.create_cluster after Examples.creation
         Examples.attributes broker_node_group_info].
  unfold index0, bind at 1, ret at 1. unfold bind at 1.
  cbn [client_subnets security_groups Examples.placement].
  rewrite script_subnets_long by (simpl; lia).
  replace (script_vpcs
             (ValidatePlan.ec2_client (Inventory.script_api Examples.inv))
             Examples.one_vpc)
    with ({["vpc-1"]} : gset string) by (vm_compute; reflexivity).
  unfold popped. rewrite set_pop_singleton. cbn [truthy].
  rewrite (script_groups_first_missing
             (Inventory.script_api Examples.inv) "vpc-1" "sg-gone" [] [])
    by (try (vm_compute; reflexivity); intros g Hg; by apply elem_of_nil in Hg).
  vm_compute. reflexivity.
Qed.

(** The hook on the same inventory records the missing group as a
    violation and returns false. *)
Lemma hook_missing_group_reported :
  PostPlan.validate Runtime.first_elem (Inventory.hook_api Examples.inv)
    [Examples.create_cluster "2.8.1" Examples.one_vpc ["sg-gone"]] st0
  = (Ret false,
     mkState ["Security group(s) {'sg-gone'} not found"]
       [ListKafkaVersions; DescribeSubnets Examples.one_vpc;
        DescribeSecurityGroups ["sg-gone"]]).
Proof. vm_compute. reflexivity. Qed.

End ScriptMissingGroup.

(** ** The clients of an inventory *)

Section InventoryFacts.
Import Inventory.
Variable key : string.
Hypothesis key_not_vpc : key ≠ "VpcId".
Variable db : gmap string (option string).

Lemma record_key (id : string) (vpc : option string) :
  record key id vpc !! key = Some id.
Proof.
  unfold record. destruct vpc as [v|].
  - rewrite lookup_insert_ne by done. apply lookup_singleton_eq.
  - apply lookup_singleton_eq.
Qed.

Lemma record_vpc (id : string) (vpc : option string) :
  record key id vpc !! "VpcId" = vpc.
Proof.
  unfold record. destruct vpc as [v|].
  - apply lookup_insert_eq.
  - by apply lookup_singleton_ne.
Qed.

Lemma elem_of_describe (r : Dict) (ids : list string) :
  r ∈ describe key db ids
  <-> exists id vpc, db !! id = Some vpc /\ id ∈ ids /\ r = record key id vpc.
Proof.
  unfold describe. rewrite list_elem_of_fmap. split.
  - intros ([id vpc] & -> & Hin). apply list_elem_of_filter in Hin as [Hid Hin].
    apply elem_of_map_to_list in Hin. by exists id, vpc.
  - intros (id & vpc & Hdb & Hid & ->). exists (id, vpc). split; [done|].
    apply list_elem_of_filter. split; [done|]. by apply elem_of_map_to_list.
Qed.

Lemma head_describe_single (id : string) :
  head (describe key db [id]) = record key id <$> db !! id.
Proof.
  destruct (describe key db [id]) as [|r rs] eqn:E.
  - destruct (db !! id) as [vpc|] eqn:Hdb; [|done].
    assert (Hin : record key id vpc ∈ describe key db [id]).
    { apply elem_of_describe. exists id, vpc. split; [done|]. split; [left|done]. }
    rewrite E in Hin. by apply elem_of_nil in Hin.
  - assert (Hin : r ∈ describe key db [id]) by (rewrite E; left).
    apply elem_of_describe in Hin as (id' & vpc & Hdb & Hid & ->).
    apply list_elem_of_singleton in Hid as ->. by rewrite Hdb.
Qed.

Lemma missing_describe (ids : list string) :
  (forall id, id ∈ ids -> is_Some (db !! id)) ->
  PostPlan.missing_ids key ids (describe key db ids) = ∅.
Proof.
  intros Hall. unfold PostPlan.missing_ids. apply set_eq. intros id.
  rewrite elem_of_difference, !elem_of_list_to_set, list_elem_of_omap.
  split; [|set_solver]. intros [Hid Hnot]. destruct Hnot.
  destruct (Hall id Hid) as [vpc Hvpc]. exists (record key id vpc).
  split; [|apply record_key]. apply elem_of_describe. by exists id, vpc.
Qed.

Lemma elem_of_vpcs_describe (v : string) (ids : list string) :
  v ∈ vpcs_of (describe key db ids)
  <-> exists id, id ∈ ids /\ vpc_of db id = Some v.
Proof.
  rewrite elem_of_vpcs_of. unfold vpc_of. split.
  - intros (r & Hr & Hv). apply elem_of_describe in Hr as (id & vpc & Hdb & Hid & ->).
    rewrite record_vpc in Hv. subst vpc. exists id. by rewrite Hdb.
  - intros (id & Hid & Hv). destruct (db !! id) as [vpc|] eqn:Hdb; [|done].
    cbn in Hv. subst vpc. exists (record key id (Some v)).
    split; [|apply record_vpc]. apply elem_of_describe. by exists id, (Some v).
Qed.

Lemma describe_all_with_vpc (ids : list string) (r : Dict) :
  Forall (fun id => is_Some (vpc_of db id)) ids ->
  r ∈ describe key db ids -> is_Some (r !! "VpcId").
Proof.
  rewrite Forall_forall. intros Hall Hr.
  apply elem_of_describe in Hr as (id & vpc & Hdb & Hid & ->).
  rewrite record_vpc. specialize (Hall id Hid). unfold vpc_of in Hall.
  by rewrite Hdb in Hall.
Qed.

End InventoryFacts.

Section ResolvableIds.
Import Inventory.
Variable rt : SetRuntime.
Variable inv : Inventory.

Lemma omap_nil {A B} (f : A -> option B) (l : list A) :
  omap f l = [] <-> Forall (fun x => f x = None) l.
Proof.
  induction l as [|x l IH]; cbn.
  - split; [constructor|done].
  - destruct (f x) eqn:E.
    + split; [done|]. intros H. apply Forall_cons in H as [H _]. congruence.
    + rewrite IH, Forall_cons. naive_solver.
Qed.

Lemma lookup_subnet_inventory (id : string) :
  lookup_subnet (ec2 inv) id = record "SubnetId" id <$> subnets inv !! id.
Proof. unfold lookup_subnet. cbn. by apply head_describe_single. Qed.

Lemma lookup_group_inventory (id : string) :
  lookup_group (ec2 inv) id = record "GroupId" id <$> groups inv !! id.
Proof. unfold lookup_group. cbn. by apply head_describe_single. Qed.

Lemma hook_vpcs_inventory (key : string) (db : gmap string (option string))
    (ids : list string) :
  key ≠ "VpcId" -> vpcs_of (describe key db ids) = vpcs db ids.
Proof.
  intros Hkey. apply set_eq. intros v.
  rewrite (elem_of_vpcs_describe key Hkey). unfold vpcs.
  by rewrite elem_of_list_to_set, list_elem_of_omap.
Qed.

Lemma script_vpcs_inventory (ids : list string) :
  script_vpcs (ec2 inv) ids = vpcs (subnets inv) ids.
Proof.
  apply set_eq. intros v. unfold script_vpcs, vpcs.
  rewrite elem_of_vpcs_of, elem_of_list_to_set, list_elem_of_omap. split.
  - intros (r & Hr & Hv). apply list_elem_of_omap in Hr as (id & Hid & Hlk).
    exists id. split; [done|]. rewrite lookup_subnet_inventory in Hlk.
    unfold vpc_of. destruct (subnets inv !! id) as [vpc|]; [|done].
    cbn in Hlk. injection Hlk as <-. by rewrite record_vpc in Hv.
  - intros (id & Hid & Hv). unfold vpc_of in Hv.
    destruct (subnets inv !! id) as [vpc|] eqn:Hdb; [|done]. cbn in Hv. subst vpc.
    exists (record "SubnetId" id (Some v)). split; [|by apply record_vpc].
    apply list_elem_of_omap. exists id. split; [done|].
    by rewrite lookup_subnet_inventory, Hdb.
Qed.

Lemma with_vpc_exists (db : gmap string (option string)) (ids : list string) :
  Forall (fun id => is_Some (vpc_of db id)) ids ->
  forall id, id ∈ ids -> is_Some (db !! id).
Proof.
  rewrite Forall_forall. intros Hall id Hid. specialize (Hall id Hid).
  unfold vpc_of in Hall. destruct (db !! id); [done|]. by destruct Hall.
Qed.

(** The hook's subnet rule when every requested id exists with a VPC
    id. *)
Lemma hook_subnets_resolvable (ids : list string) (st : State) :
  3 <= length ids ->
  Forall (fun id => is_Some (vpc_of (subnets inv) id)) ids ->
  PostPlan._validate_subnets rt (hook_api inv) ids st
  = (popped rt (vpcs (subnets inv) ids),
     mkState (errors st ++ same_vpc_error (vpcs (subnets inv) ids))
       (calls st ++ [DescribeSubnets ids])).
Proof.
  intros Hlen Hall.
  rewrite hook_subnets_resolved;
    [|done|apply missing_describe; [done|by apply with_vpc_exists]].
  cbn [HooksLib.ec2_client hook_api ec2 describe_subnets].
  rewrite hook_vpcs_inventory by done.
  replace (hook_subnet_errors (describe "SubnetId" (subnets inv) ids))
    with (@nil string); [done|].
  symmetry. apply omap_nil, Forall_forall. intros r Hr.
  apply (describe_all_with_vpc "SubnetId") in Hr as [v ->]; done.
Qed.

(** The script's subnet rule in the same situation. *)
Lemma script_subnets_resolvable (ids : list string) (st : State) :
  3 <= length ids ->
  Forall (fun id => is_Some (vpc_of (subnets inv) id)) ids ->
  ValidatePlan._validate_subnets rt (script_api inv) ids st
  = (popped rt (vpcs (subnets inv) ids),
     mkState (errors st ++ same_vpc_error (vpcs (subnets inv) ids))
       (calls st ++ ((fun id => DescribeSubnets [id]) <$> ids))).
Proof.
  intros Hlen Hall. rewrite script_subnets_long by done.
  cbn [ValidatePlan.ec2_client script_api].
  rewrite script_vpcs_inventory.
  replace (omap (script_subnet_error (ec2 inv)) ids) with (@nil string); [done|].
  symmetry. apply omap_nil. eapply Forall_impl; [exact Hall|].
  intros id [v Hv]. unfold script_subnet_error.
  rewrite lookup_subnet_inventory. unfold vpc_of in Hv.
  destruct (subnets inv !! id) as [vpc|]; [|done]. cbn in Hv. subst vpc.
  change (record "SubnetId" id <$> Some (Some v))
    with (Some (record "SubnetId" id (Some v))).
  cbn beta iota. by rewrite record_vpc.
Qed.

End ResolvableIds.

(** ** The subnet count is a count of list elements *)

Section RepeatedSubnet.
Import Inventory.
Variable rt : SetRuntime.
Variable inv : Inventory.

(** C10: for a subnet that exists in the inventory with a VPC id, the
    list that repeats its id three times passes the subnet rule of both
    validators: no violation is appended and the rule returns the
    subnet's VPC id. *)
Theorem repeated_subnet_id_passes (s v : string) (st : State) :
  subnets inv !! s = Some (Some v) ->
  PostPlan._validate_subnets rt (hook_api inv) [s; s; s] st
  = (Ret (Some v),
     mkState (errors st) (calls st ++ [DescribeSubnets [s; s; s]]))
  /\ PostPlan.missing_ids "SubnetId" [s; s; s]
       (describe_subnets (ec2 inv) [s; s; s]) = ∅
  /\ ValidatePlan._validate_subnets rt (script_api inv) [s; s; s] st
     = (Ret (Some v),
        mkState (errors st)
          (calls st
           ++ [DescribeSubnets [s]; DescribeSubnets [s]; DescribeSubnets [s]])).
Proof.
  intros Hs.
  assert (Hvpc : vpc_of (subnets inv) s = Some v) by (unfold vpc_of; by rewrite Hs).
  assert (Hall : Forall (fun id => is_Some (vpc_of (subnets inv) id)) [s; s; s]).
  { repeat constructor; by rewrite Hvpc. }
  assert (Hset : vpcs (subnets inv) [s; s; s] = {[v]}).
  { unfold vpcs. cbn. rewrite Hvpc. cbn. set_solver. }
  assert (Hpop : popped rt {[v]} = Ret (Some v)).
  { unfold popped. by rewrite set_pop_singleton. }
  assert (Hsame : same_vpc_error ({[v]} : gset string) = []).
  { unfold same_vpc_error. by rewrite size_singleton. }
  split; [|split].
  - rewrite hook_subnets_resolvable by (done || (cbn; lia)).
    by rewrite Hset, Hpop, Hsame, app_nil_r.
  - apply missing_describe; [done|]. by apply with_vpc_exists.
  - rewrite script_subnets_resolvable by (done || (cbn; lia)).
    by rewrite Hset, Hpop, Hsame, app_nil_r.
Qed.

End RepeatedSubnet.

Lemma repeated_subnet_id_passes_witness :
  Inventory.subnets Examples.inv !! "subnet-a" = Some (Some "vpc-1")
  /\ (PostPlan._validate_subnets Runtime.first_elem (Inventory.hook_api Examples.inv)
        ["subnet-a"; "subnet-a"; "subnet-a"] st0
      = (Ret (Some "vpc-1"),
         mkState [] ([] ++ [DescribeSubnets ["subnet-a"; "subnet-a"; "subnet-a"]]))
      /\ PostPlan.missing_ids "SubnetId" ["subnet-a"; "subnet-a"; "subnet-a"]
           (describe_subnets (Inventory.ec2 Examples.inv)
              ["subnet-a"; "subnet-a"; "subnet-a"]) = ∅
      /\ ValidatePlan._validate_subnets Runtime.first_elem
           (Inventory.script_api Examples.inv)
           ["subnet-a"; "subnet-a"; "subnet-a"] st0
         = (Ret (Some "vpc-1"),
            mkState []
              ([] ++ [DescribeSubnets ["subnet-a"]; DescribeSubnets ["subnet-a"];
                      DescribeSubnets ["subnet-a"]]))).
Proof.
  split; [vm_compute; reflexivity|].
  apply (repeated_subnet_id_passes Runtime.first_elem Examples.inv
           "subnet-a" "vpc-1" st0).
  vm_compute. reflexivity.
Defined.

(** ** The two validators on a resolvable plan *)

Section Agreement.
Import Inventory.
Variable rtH rtS : SetRuntime.
Variable inv : Inventory.

Lemma agree_app (xs ys es es' : list string) (ca cb : list Call) :
  (xs = [] <-> ys = []) -> (es = [] <-> es' = []) ->
  agree (mkState (xs ++ es) ca) (mkState (ys ++ es') cb).
Proof.
  unfold agree. cbn. rewrite !app_nil. tauto.
Qed.

Lemma agree_nonempty (a b : State) (es es' : list string) (ca cb : list Call) :
  es ≠ [] -> es' ≠ [] ->
  agree (mkState (errors a ++ es) ca) (mkState (errors b ++ es') cb).
Proof.
  unfold agree. cbn. rewrite !app_nil. tauto.
Qed.

Lemma kafka_listing (vs : list string) :
  omap (fun v : Dict => v !! "Version")
    (concat [(fun v : string => ({["Version" := v]} : Dict)) <$> vs])
  = vs.
Proof.
  cbn. rewrite app_nil_r. induction vs as [|v vs IH]; [done|].
  cbn. rewrite lookup_singleton_eq. cbn. by rewrite IH.
Qed.

Lemma hook_version_inventory (v : string) (st : State) :
  v ∈ versions inv ->
  PostPlan._validate_kafka_version (hook_api inv) v st
  = (Ret tt, mkState (errors st) (calls st ++ [ListKafkaVersions])).
Proof.
  intros Hv. apply hook_version_member with (versions inv); [|done].
  rewrite get_kafka_versions_run. cbn [fst hook_api kafka HooksLib.kafka_client
    list_kafka_versions]. by rewrite kafka_listing.
Qed.

Lemma hook_group_errors_nil (v : string) (ids : list string) :
  Forall (fun id => is_Some (vpc_of (groups inv) id)) ids ->
  hook_group_errors v (describe "GroupId" (groups inv) ids) = []
  <-> Forall (fun id => vpc_of (groups inv) id = Some v) ids.
Proof.
  intros Hall. unfold hook_group_errors. rewrite omap_nil, !Forall_forall. split.
  - intros H id Hid. rewrite Forall_forall in Hall.
    destruct (Hall id Hid) as [w Hw]. unfold vpc_of in *.
    destruct (groups inv !! id) as [vpc|] eqn:Hdb; [|done]. cbn in *. subst vpc.
    specialize (H (record "GroupId" id (Some w))).
    rewrite record_vpc in H by done.
    case_bool_decide as Hd.
    + discriminate H. apply (elem_of_describe "GroupId"). by exists id, (Some w).
    + by destruct (decide (Some w = Some v)).
  - intros H r Hr. apply (elem_of_describe "GroupId") in Hr as (id & vpc & Hdb & Hid & ->).
    specialize (H id Hid). unfold vpc_of in H. rewrite Hdb in H. cbn in H.
    subst vpc. rewrite record_vpc by done. by rewrite bool_decide_eq_false_2 by auto.
Qed.

Lemma script_group_errors_nil (v : string) (ids : list string) :
  Forall (fun id => is_Some (vpc_of (groups inv) id)) ids ->
  script_group_errors (ec2 inv) v ids = []
  <-> Forall (fun id => vpc_of (groups inv) id = Some v) ids.
Proof.
  intros Hall. unfold script_group_errors. rewrite omap_nil, !Forall_forall.
  rewrite Forall_forall in Hall.
  assert (Hstep : forall id, id ∈ ids ->
            lookup_group (ec2 inv) id ≫= script_group_error v id = None
            <-> vpc_of (groups inv) id = Some v).
  { intros id Hid. destruct (Hall id Hid) as [w Hw].
    rewrite lookup_group_inventory. unfold vpc_of in *.
    destruct (groups inv !! id) as [vpc|]; [|done]. cbn in Hw. subst vpc.
    change (record "GroupId" id <$> Some (Some w))
      with (Some (record "GroupId" id (Some w))).
    cbn [mbind option_bind mjoin option_join]. unfold script_group_error.
    rewrite record_vpc by done.
    case_bool_decide as Hd; split; intros Heq; try done.
    - congruence.
    - by destruct (decide (w = v)) as [->|]. }
  split; intros H id Hid; apply Hstep; auto.
Qed.

Lemma hook_groups_inventory (v : string) (ids : list string) (st : State) :
  Forall (fun id => is_Some (vpc_of (groups inv) id)) ids ->
  PostPlan._validate_security_groups rtH (hook_api inv) ids v st
  = (Ret tt,
     mkState
       (errors st ++ hook_group_errors v (describe "GroupId" (groups inv) ids))
       (calls st ++ [DescribeSecurityGroups ids])).
Proof.
  intros Hall. apply hook_groups_resolved.
  apply missing_describe; [done|]. by apply with_vpc_exists.
Qed.

Lemma script_groups_inventory (v : string) (ids : list string) (st : State) :
  Forall (fun id => is_Some (vpc_of (groups inv) id)) ids ->
  ValidatePlan._validate_security_groups (script_api inv) ids v st
  = (Ret tt,
     mkState (errors st ++ script_group_errors (ec2 inv) v ids)
       (calls st ++ ((fun id => DescribeSecurityGroups [id]) <$> ids))).
Proof.
  intros Hall. apply script_groups_resolved. intros sg Hsg.
  cbn [ValidatePlan.ec2_client script_api]. rewrite lookup_group_inventory.
  apply fmap_is_Some. by apply (with_vpc_exists _ ids).
Qed.

Lemma vpcs_nonempty (ids : list string) :
  3 <= length ids ->
  Forall (fun id => is_Some (vpc_of (subnets inv) id)) ids ->
  vpcs (subnets inv) ids ≠ ∅.
Proof.
  intros Hlen Hall. destruct ids as [|id ids]; [cbn in Hlen; lia|].
  apply Forall_cons in Hall as [[v Hv] _]. unfold vpcs. cbn. rewrite Hv. cbn.
  set_solver.
Qed.

(** The security-group step that follows the subnet rule, in both
    validators, once a VPC id was popped. *)
Lemma group_step_agree (vH vS : string) (groups : list string)
    (a b : State) (es : list string) (ca cb : list Call) :
  Forall (fun id => is_Some (vpc_of (Inventory.groups inv) id)) groups ->
  agree a b ->
  (es = [] -> vH = vS) ->
  same_outcome
    ((if truthy vH
      then PostPlan._validate_security_groups rtH (hook_api inv) groups vH
      else ret tt) (mkState (errors a ++ es) ca))
    ((if truthy vS
      then ValidatePlan._validate_security_groups (script_api inv) groups vS
      else ret tt) (mkState (errors b ++ es) cb)).
Proof.
  intros Hall Hab Hes.
  assert (Hbase : agree (mkState (errors a ++ es) ca) (mkState (errors b ++ es) cb))
    by (by apply agree_app).
  destruct es as [|e es].
  - rewrite <- (Hes eq_refl). destruct (truthy vH); [|exact Hbase].
    rewrite hook_groups_inventory, script_groups_inventory by done.
    cbn [same_outcome errors calls]. apply agree_app; [exact Hbase|].
    by rewrite hook_group_errors_nil, script_group_errors_nil.
  - assert (Hne : forall (st : State) (xs : list string) (c : list Call),
              errors st = errors a ++ e :: es \/ errors st = errors b ++ e :: es ->
              errors (mkState (errors st ++ xs) c) ≠ []).
    { intros st xs c [H|H]; cbn; rewrite H, !app_nil;
        intros [[_ ?] _]; discriminate. }
    destruct (truthy vH), (truthy vS);
      rewrite ?hook_groups_inventory, ?script_groups_inventory by done;
      cbn [same_outcome ret]; unfold agree; cbn [errors];
      rewrite !app_nil; split; intros H; exfalso;
      repeat match goal with
             | H : _ /\ _ |- _ => destruct H
             | H : _ :: _ = [] |- _ => discriminate H
             end.
Qed.

(** One iteration of [validate], in both validators. *)
Lemma update_agree (u : ResourceChange) (a b : State) :
  resolvable inv u ->
  agree a b ->
  same_outcome
    (PostPlan.validate_update rtH (hook_api inv) u a)
    (ValidatePlan.validate_update rtS (script_api inv) u b).
Proof.
  unfold resolvable, PostPlan.validate_update, ValidatePlan.validate_update.
  intros Hres Hab.
  destruct (change u) as [ch|]; [|exact Hab].
  destruct (after ch) as [x|]; [|exact Hab].
  destruct Hres as [Hver Hres].
  unfold bind at 1. rewrite (hook_version_inventory _ a Hver).
  destruct (broker_node_group_info x) as [|p ps]; [done|].
  destruct Hres as [Hsub Hgrp].
  unfold index0, bind. cbn [ret].
  change (ret p b) with (Ret p, b). cbn beta iota.
  destruct (Nat.lt_ge_cases (length (client_subnets p)) 3) as [Hlen|Hlen].
  - rewrite hook_subnets_short, script_subnets_short by done.
    cbn [same_outcome ret]. by apply agree_nonempty.
  - rewrite (hook_subnets_resolvable rtH inv _ _ Hlen Hsub).
    rewrite (script_subnets_resolvable rtS inv _ _ Hlen Hsub).
    pose proof (vpcs_nonempty _ Hlen Hsub) as Hne.
    destruct (set_pop_nonempty rtH _ Hne) as (vH & HpH & HvH).
    destruct (set_pop_nonempty rtS _ Hne) as (vS & HpS & HvS).
    unfold popped. rewrite HpH, HpS. cbn [errors calls].
    apply (group_step_agree vH vS (security_groups p) a b); [done|done|].
    unfold same_vpc_error.
    destruct (Nat.ltb_spec 1 (size (vpcs (subnets inv) (client_subnets p))))
      as [Hlt|Hle]; [done|]. intros _.
    assert (Hsize : size (vpcs (subnets inv) (client_subnets p)) = 1).
    { assert (size (vpcs (subnets inv) (client_subnets p)) ≠ 0); [|lia].
      intros H0. by apply size_empty_iff, leibniz_equiv in H0. }
    by apply (size_singleton_inv _ _ _ Hsize).
Qed.

(** The loop of [validate], in both validators. *)
Lemma loop_agree (us : list ResourceChange) (a b : State) :
  Forall (resolvable inv) us ->
  agree a b ->
  same_outcome
    (for_each (PostPlan.validate_update rtH (hook_api inv)) us a)
    (for_each (ValidatePlan.validate_update rtS (script_api inv)) us b).
Proof.
  intros Hall. revert a b.
  induction Hall as [|u us Hu _ IH]; intros a b Hab; [exact Hab|].
  cbn [for_each]. unfold bind.
  pose proof (update_agree u a b Hu Hab) as Hstep.
  destruct (PostPlan.validate_update rtH (hook_api inv) u a) as [[[]|e] a'],
    (ValidatePlan.validate_update rtS (script_api inv) u b) as [[[]|e'] b'];
    cbn in Hstep; try done.
  by apply IH.
Qed.

(** C9: on a plan whose matching changes refer only to subnets and
    security groups that exist in the inventory with a VPC id, and
    propose a version of the supported listing, the hook and the script
    give the same outcome from [validate]: the same boolean, or the same
    exception. *)
Theorem validators_agree (plan : list ResourceChange) :
  Forall (resolvable inv) (PostPlan.msk_instance_updates plan) ->
  fst (PostPlan.validate rtH (hook_api inv) plan st0)
  = fst (ValidatePlan.validate rtS (script_api inv) plan st0).
Proof.
  intros Hall. unfold PostPlan.validate, ValidatePlan.validate, bind.
  change (ValidatePlan.msk_instance_updates plan)
    with (PostPlan.msk_instance_updates plan).
  assert (H0 : agree st0 st0) by done.
  pose proof (loop_agree _ st0 st0 Hall H0) as Hloop.
  destruct (for_each (PostPlan.validate_update rtH (hook_api inv))
              (PostPlan.msk_instance_updates plan) st0) as [[[]|e] a'],
    (for_each (ValidatePlan.validate_update rtS (script_api inv))
       (PostPlan.msk_instance_updates plan) st0) as [[[]|e'] b'];
    cbn in Hloop; try done; [|by subst].
  unfold errors_empty, agree in *. cbn.
  destruct (errors a'), (errors b'); try done.
  - destruct Hloop as [H _]. by specialize (H eq_refl).
  - destruct Hloop as [_ H]. by specialize (H eq_refl).
Qed.

End Agreement.

Lemma validators_agree_witness :
  fst (PostPlan.validate Runtime.first_elem (Inventory.hook_api Examples.inv)
         Examples.plan st0)
  = fst (ValidatePlan.validate Runtime.first_elem
           (Inventory.script_api Examples.inv) Examples.plan st0).
Proof.
  apply (validators_agree Runtime.first_elem Runtime.first_elem Examples.inv
           Examples.plan).
  apply (bool_decide_unpack _). vm_compute. exact I.
Defined.

(** ** Methods as writers of the report *)

Section Writers.
Context {A B : Type}.

Lemma behaves_weaken (P Q : Exn -> Prop) (m : M A) :
  (forall e, P e -> Q e) -> behaves P m -> behaves Q m.
Proof.
  intros HPQ (o & es & cs & Hw & Ho). exists o, es, cs. split; [done|].
  destruct o; auto.
Qed.

Lemma behaves_ret (P : Exn -> Prop) (a : A) : behaves P (ret a).
Proof.
  exists (Ret a), [], []. split; [|done]. intros st. unfold ret.
  by rewrite !app_nil_r, state_eta.
Qed.

Lemma behaves_raise (P : Exn -> Prop) (e : Exn) : P e -> behaves P (@raise A e).
Proof.
  intros He. exists (Raise e), [], []. split; [|done]. intros st. unfold raise.
  by rewrite !app_nil_r, state_eta.
Qed.

Lemma behaves_bind (P : Exn -> Prop) (m : M A) (k : A -> M B) :
  behaves P m -> (forall a, behaves P (k a)) -> behaves P (bind m k).
Proof.
  intros (o & es & cs & Hw & Ho) Hk. destruct o as [a|e].
  - destruct (Hk a) as (o' & es' & cs' & Hw' & Ho').
    exists o', (es ++ es'), (cs ++ cs'). split; [|done]. intros st.
    unfold bind. rewrite Hw, Hw'. cbn. by rewrite !app_assoc.
  - exists (Raise e), es, cs. split; [|done]. intros st. unfold bind. by rewrite Hw.
Qed.

Lemma behaves_try_except (P Q : Exn -> Prop) (m : M A)
    (handler : Exn -> option (M A)) :
  behaves P m ->
  (forall e, P e ->
     match handler e with
     | Some h => behaves Q h
     | None => Q e
     end) ->
  behaves Q (try_except m handler).
Proof.
  intros (o & es & cs & Hw & Ho) Hh. destruct o as [a|e].
  - exists (Ret a), es, cs. split; [|done]. intros st. unfold try_except.
    by rewrite Hw.
  - specialize (Hh e Ho). destruct (handler e) as [h|] eqn:E.
    + destruct Hh as (o' & es' & cs' & Hw' & Ho').
      exists o', (es ++ es'), (cs ++ cs'). split; [|done]. intros st.
      unfold try_except. rewrite Hw, E, Hw'. cbn. by rewrite !app_assoc.
    + exists (Raise e), es, cs. split; [|done]. intros st. unfold try_except.
      by rewrite Hw, E.
Qed.

End Writers.

Section WriterLoops.
Context {A S : Type}.

Lemma behaves_errors_append (P : Exn -> Prop) (msg : string) :
  behaves P (errors_append msg).
Proof.
  exists (Ret tt), [msg], []. split; [|done]. intros st. unfold errors_append.
  by rewrite app_nil_r.
Qed.

Lemma behaves_call (P : Exn -> Prop) (c : Call) : behaves P (call c).
Proof.
  exists (Ret tt), [], [c]. split; [|done]. intros st. unfold call.
  by rewrite app_nil_r.
Qed.

Lemma behaves_for_each (P : Exn -> Prop) (body : A -> M unit) (xs : list A) :
  (forall x, behaves P (body x)) -> behaves P (for_each body xs).
Proof.
  intros Hbody. induction xs as [|x xs IH]; cbn [for_each].
  - apply behaves_ret.
  - apply behaves_bind; [apply Hbody|]. intros _. exact IH.
Qed.

Lemma behaves_for_acc (P : Exn -> Prop) (body : A -> S -> M S) (xs : list A)
    (acc : S) :
  (forall x s, behaves P (body x s)) -> behaves P (for_acc body xs acc).
Proof.
  intros Hbody. revert acc. induction xs as [|x xs IH]; intros acc; cbn [for_acc].
  - apply behaves_ret.
  - apply behaves_bind; [apply Hbody|]. intros acc'. apply IH.
Qed.

Lemma behaves_index0 (xs : list A) : behaves hook_exn (index0 xs).
Proof.
  destruct xs; cbn; [apply behaves_raise; by right|apply behaves_ret].
Qed.

Lemma behaves_pop (rt : SetRuntime) (s : gset string) : behaves hook_exn (pop rt s).
Proof.
  unfold pop. destruct (set_pop rt s); [apply behaves_ret|].
  apply behaves_raise. by left.
Qed.

End WriterLoops.

(** ** The validators only append to the report *)

Ltac behave :=
  repeat first
    [ apply behaves_ret
    | apply behaves_errors_append
    | apply behaves_call
    | apply behaves_pop
    | apply behaves_index0
    | apply behaves_bind; [|intros ?] ].

Section HookWriter.
Import HooksLib PostPlan.
Variable rt : SetRuntime.
Variable self : AWSApi.

Lemma hook_subnets_behaves (subnets : list string) :
  behaves hook_exn (_validate_subnets rt self subnets).
Proof.
  unfold _validate_subnets, get_subnets.
  destruct (length subnets <? MIN_SUBNETS)%nat; [behave|].
  behave. case_bool_decide; [behave|].
  behave; [|by destruct (1 <? size _)%nat; behave].
  apply behaves_for_acc. intros r acc. destruct (r !! "VpcId"); behave.
Qed.

Lemma hook_groups_behaves (groups : list string) (vpc_id : string) :
  behaves hook_exn (_validate_security_groups rt self groups vpc_id).
Proof.
  unfold _validate_security_groups, get_security_groups.
  behave. case_bool_decide; [behave|].
  apply behaves_for_each. intros r. case_bool_decide; behave.
Qed.

Lemma hook_version_behaves (v : string) :
  behaves hook_exn (_validate_kafka_version self v).
Proof.
  unfold _validate_kafka_version, get_kafka_versions.
  apply behaves_bind; [behave|]. intros [|w ws]; [behave|].
  case_bool_decide; behave.
Qed.

Lemma hook_update_behaves (u : ResourceChange) :
  behaves hook_exn (validate_update rt self u).
Proof.
  unfold validate_update.
  destruct (change u) as [ch|]; [|behave].
  destruct (after ch) as [a|]; [|behave].
  apply behaves_bind; [apply hook_version_behaves|intros _].
  apply behaves_bind; [apply behaves_index0|intros b].
  apply behaves_bind; [apply hook_subnets_behaves|intros [v|]]; [|behave].
  destruct (truthy v); [apply hook_groups_behaves|behave].
Qed.


End HookWriter.

Section ScriptWriter.
Import ValidatePlan.
Variable rt : SetRuntime.
Variable self : AWSApi.

Lemma script_get_subnet_behaves (id : string) :
  behaves (fun e => exists s, e = SubnetNotFoundError s) (get_subnet self id).
Proof.
  unfold get_subnet. behave.
  destruct (describe_subnets _ _); [apply behaves_raise; by exists id|behave].
Qed.

Lemma script_get_group_behaves (id : string) :
  behaves (fun e => exists s, e = SubnetNotFoundError s) (get_security_group self id).
Proof.
  unfold get_security_group. behave.
  destruct (describe_security_groups _ _); [apply behaves_raise; by exists id|behave].
Qed.

Lemma script_subnets_behaves (subnets : list string) :
  behaves hook_exn (_validate_subnets rt self subnets).
Proof.
  unfold _validate_subnets.
  destruct (length subnets <? 3)%nat; [behave|].
  behave; [|by destruct (1 <? size _)%nat; behave].
  apply behaves_for_acc. intros id acc.
  eapply behaves_try_except.
  - apply behaves_bind; [apply script_get_subnet_behaves|].
    intros d. destruct (d !! "VpcId"); behave.
  - intros e [s ->]. behave.
Qed.

Lemma script_groups_behaves (groups : list string) (vpc_id : string) :
  behaves script_exn (_validate_security_groups self groups vpc_id).
Proof.
  unfold _validate_security_groups. apply behaves_for_each. intros id.
  eapply behaves_try_except.
  - apply behaves_bind; [apply script_get_group_behaves|].
    intros d. destruct (d !! "VpcId"); [case_bool_decide|]; behave.
  - intros e [s ->]. right. by exists s.
Qed.

Lemma script_update_behaves (u : ResourceChange) :
  behaves script_exn (validate_update rt self u).
Proof.
  unfold validate_update.
  destruct (change u) as [ch|]; [|behave].
  destruct (after ch) as [a|]; [|behave].
  apply behaves_bind.
  { apply (behaves_weaken hook_exn); [by left|apply behaves_index0]. }
  intros b. apply behaves_bind.
  { apply (behaves_weaken hook_exn); [by left|apply script_subnets_behaves]. }
  intros [v|]; [|behave].
  destruct (truthy v); [apply script_groups_behaves|behave].
Qed.


End ScriptWriter.

(** ** The change extractor *)

Section Extractor.

Lemma keeps_matching (u : ResourceChange) :
  String.eqb (type u) "aws_msk_cluster"
  && match change u with
     | Some ch => bool_decide (ActionCreate ∈ actions ch)
     | None => false
     end = true
  <-> matching u.
Proof.
  unfold matching. rewrite andb_true_iff, String.eqb_eq. split.
  - intros [Hty Hch]. split; [done|]. destruct (change u) as [ch|]; [|done].
    exists ch. split; [done|]. by apply bool_decide_eq_true in Hch.
  - intros [Hty (ch & -> & Hact)]. split; [done|]. by apply bool_decide_eq_true.
Qed.

Lemma updates_drop_unmatched (u : ResourceChange) (before rest : list ResourceChange) :
  ~ matching u ->
  PostPlan.msk_instance_updates (before ++ u :: rest)
  = PostPlan.msk_instance_updates (before ++ rest).
Proof.
  intros Hu. unfold PostPlan.msk_instance_updates.
  rewrite !List.filter_app. cbn [List.filter].
  destruct (String.eqb (type u) "aws_msk_cluster" && _) eqn:E; [|done].
  by apply keeps_matching in E.
Qed.

Lemma for_each_app {A} (body : A -> M unit) (xs ys : list A) (st : State) :
  for_each body (xs ++ ys) st = (for_each body xs ;; for_each body ys) st.
Proof.
  revert st. induction xs as [|x xs IH]; intros st; cbn [app for_each].
  - reflexivity.
  - unfold bind. destruct (body x st) as [[[]|e] st1]; [|done].
    rewrite IH. reflexivity.
Qed.

Lemma updates_keep_order (u : ResourceChange) (before rest : list ResourceChange) :
  matching u ->
  PostPlan.msk_instance_updates (before ++ u :: rest)
  = PostPlan.msk_instance_updates before
    ++ u :: PostPlan.msk_instance_updates rest.
Proof.
  intros Hu. unfold PostPlan.msk_instance_updates.
  rewrite List.filter_app. cbn [List.filter].
  by rewrite (proj2 (keeps_matching u) Hu).
Qed.

(** A change of another resource type, a change whose actions do not
    include the creation, and a matching change that has no post-apply
    attribute map, make no difference to [validate], in the hook and in
    the script, wherever they stand in the plan. *)
Theorem unmatched_change_ignored
    (rt : SetRuntime) (hook : HooksLib.AWSApi) (script : ValidatePlan.AWSApi)
    (u : ResourceChange) (before rest : list ResourceChange) (st : State) :
  ~ matching u \/ (exists ch, change u = Some ch /\ after ch = None) ->
  PostPlan.validate rt hook (before ++ u :: rest) st
  = PostPlan.validate rt hook (before ++ rest) st
  /\ ValidatePlan.validate rt script (before ++ u :: rest) st
     = ValidatePlan.validate rt script (before ++ rest) st.
Proof.
  intros Hu. unfold PostPlan.validate, ValidatePlan.validate.
  change ValidatePlan.msk_instance_updates with PostPlan.msk_instance_updates.
  assert (Hdec : matching u \/ ~ matching u).
  { destruct (String.eqb (type u) "aws_msk_cluster"
              && match change u with
                 | Some ch => bool_decide (ActionCreate ∈ actions ch)
                 | None => false
                 end) eqn:E.
    - left. by apply keeps_matching.
    - right. intros H. apply keeps_matching in H. congruence. }
  destruct Hdec as [Hm|Hm].
  - destruct Hu as [Hu|(ch & Hch & Haf)]; [done|].
    rewrite (updates_keep_order u before rest Hm).
    unfold PostPlan.msk_instance_updates at 3 6. rewrite List.filter_app.
    fold (PostPlan.msk_instance_updates before) (PostPlan.msk_instance_updates rest).
    unfold bind at 1 2 3 4. rewrite !for_each_app.
    cbn [for_each]. unfold bind.
    unfold PostPlan.validate_update, ValidatePlan.validate_update.
    rewrite Hch, Haf. split.
    + by destruct (for_each _ (PostPlan.msk_instance_updates before) st) as [[[]|e] s1].
    + by destruct (for_each _ (PostPlan.msk_instance_updates before) st) as [[[]|e] s1].
  - by rewrite (updates_drop_unmatched u before rest Hm).
Qed.

End Extractor.

Lemma unmatched_change_ignored_witness :
  PostPlan.validate Runtime.first_elem (Inventory.hook_api Examples.inv)
    ([Examples.create_cluster "2.8.1" Examples.one_vpc ["sg-1"]]
     ++ mkResourceChange "aws_msk_cluster" (Some (mkChange [ActionUpdate] None))
        :: [Examples.create_cluster "3.6.0" Examples.two_vpcs ["sg-2"]]) st0
  = PostPlan.validate Runtime.first_elem (Inventory.hook_api Examples.inv)
      ([Examples.create_cluster "2.8.1" Examples.one_vpc ["sg-1"]]
       ++ [Examples.create_cluster "3.6.0" Examples.two_vpcs ["sg-2"]]) st0
  /\ ValidatePlan.validate Runtime.first_elem (Inventory.script_api Examples.inv)
       ([Examples.create_cluster "2.8.1" Examples.one_vpc ["sg-1"]]
        ++ mkResourceChange "aws_msk_cluster" (Some (mkChange [ActionUpdate] None))
           :: [Examples.create_cluster "3.6.0" Examples.two_vpcs ["sg-2"]]) st0
     = ValidatePlan.validate Runtime.first_elem (Inventory.script_api Examples.inv)
         ([Examples.create_cluster "2.8.1" Examples.one_vpc ["sg-1"]]
          ++ [Examples.create_cluster "3.6.0" Examples.two_vpcs ["sg-2"]]) st0.
Proof.
  apply (unmatched_change_ignored Runtime.first_elem
           (Inventory.hook_api Examples.inv) (Inventory.script_api Examples.inv)).
  left. intros [_ (ch & Hch & Hact)]. simpl in Hch. injection Hch as <-.
  simpl in Hact. apply (bool_decide_eq_false_1 (ActionCreate ∈ [ActionUpdate])); [|done].
  vm_compute. reflexivity.
Defined.

(** ** The version listing *)

Section VersionListing.
Import HooksLib.

(** [get_kafka_versions] makes one listing call, leaves the report alone
    and returns exactly the versions carried by the records of the pages:
    a version is returned if and only if some record of some page has it
    under [Version]; records without that key are skipped, so there are at
    most as many versions as records. *)
Theorem get_kafka_versions_members (self : AWSApi) (st : State) :
  exists vs,
    get_kafka_versions self st
    = (Ret vs, mkState (errors st) (calls st ++ [ListKafkaVersions]))
    /\ (forall v,
          v ∈ vs
          <-> exists (page : list Dict) (r : Dict),
                page ∈ list_kafka_versions (kafka_client self)
                /\ r ∈ page /\ r !! "Version" = Some v)
    /\ length vs <= length (concat (list_kafka_versions (kafka_client self))).
Proof.
  eexists. split; [apply get_kafka_versions_run|]. split.
  - intros v. rewrite list_elem_of_omap. split.
    + intros (r & Hr & Hv).
      apply list_elem_of_In, in_concat in Hr as (page & Hpage & Hr).
      exists page, r. by rewrite !list_elem_of_In.
    + intros (page & r & Hpage & Hr & Hv). exists r. split; [|done].
      apply list_elem_of_In, in_concat. exists page. by rewrite <- !list_elem_of_In.
  - generalize (concat (list_kafka_versions (kafka_client self))).
    intros l. induction l as [|r l IH]; cbn; [lia|].
    destruct (r !! "Version"); cbn; lia.
Qed.

(** The pages are read in order: the listing of a sequence of pages
    followed by another is the listing of the first followed by the
    listing of the second. *)
Theorem get_kafka_versions_pages (ec2 : EC2Client) (pages more : list (list Dict))
    (st : State) :
  forall vs ws,
    fst (get_kafka_versions (mkAWSApi ec2 (mkKafka pages)) st) = Ret vs ->
    fst (get_kafka_versions (mkAWSApi ec2 (mkKafka more)) st) = Ret ws ->
    fst (get_kafka_versions (mkAWSApi ec2 (mkKafka (pages ++ more))) st)
    = Ret (vs ++ ws).
Proof.
  intros vs ws. rewrite !get_kafka_versions_run. cbn.
  intros [= <-] [= <-]. by rewrite concat_app, omap_app.
Qed.

End VersionListing.

Lemma get_kafka_versions_pages_witness :
  fst (HooksLib.get_kafka_versions
         (HooksLib.mkAWSApi (Inventory.ec2 Examples.inv)
            (mkKafka ([[{["Version" := "2.8.1"]}; {["Status" := "ACTIVE"]}]]
                      ++ [[]; [{["Version" := "3.6.0"]}]]))) st0)
  = Ret (["2.8.1"] ++ ["3.6.0"]).
Proof.
  apply (get_kafka_versions_pages (Inventory.ec2 Examples.inv)
           [[{["Version" := "2.8.1"]}; {["Status" := "ACTIVE"]}]]
           [[]; [{["Version" := "3.6.0"]}]] st0).
  - vm_compute. reflexivity.
  - vm_compute. reflexivity.
Defined.

(** ** The three ways out of the subnet rule *)

Section SubnetOutcome.
Variable rt : SetRuntime.

Lemma vpcs_of_empty_iff (data : list Dict) :
  vpcs_of data = ∅ <-> Forall (fun r : Dict => r !! "VpcId" = None) data.
Proof.
  split; [|apply vpcs_of_none]. intros He. apply Forall_forall. intros r Hr.
  destruct (r !! "VpcId") as [v|] eqn:E; [|done].
  assert (Hv : v ∈ vpcs_of data) by (apply elem_of_vpcs_of; eauto).
  rewrite He in Hv. set_solver.
Qed.

Lemma popped_raise (s : gset string) (e : Exn) :
  popped rt s = Raise e <-> e = KeyError "pop from an empty set" /\ s = ∅.
Proof.
  unfold popped. destruct (set_pop rt s) as [v|] eqn:E.
  - split; [done|]. intros [_ ->]. by rewrite set_pop_of_empty in E.
  - apply set_pop_empty in E. split; [|by intros [-> _]].
    by intros [= <-].
Qed.

Lemma popped_ret (s : gset string) (o : option string) :
  popped rt s = Ret o -> exists v, o = Some v /\ v ∈ s.
Proof.
  unfold popped. destruct (set_pop rt s) as [v|] eqn:E; [|done].
  intros [= <-]. exists v. split; [done|]. by apply set_pop_elem in E.
Qed.

(** The hook's subnet rule returns absent exactly when fewer than 3 ids
    are requested or some requested id is missing from the response; when
    it returns a VPC id, at least 3 ids were requested, none is missing
    and the id is the VPC id of a returned record; it raises exactly when
    at least 3 ids were requested, none is missing and no returned record
    has a VPC id, and the exception is the [KeyError] of the empty pop. *)
Theorem hook_subnets_outcome
    (self : HooksLib.AWSApi) (subnets : list string) (st : State) :
  let data := describe_subnets (HooksLib.ec2_client self) subnets in
  let res := fst (PostPlan._validate_subnets rt self subnets st) in
  (res = Ret None
   <-> length subnets < 3 \/ PostPlan.missing_ids "SubnetId" subnets data ≠ ∅)
  /\ (forall v,
        res = Ret (Some v) ->
        3 <= length subnets
        /\ PostPlan.missing_ids "SubnetId" subnets data = ∅
        /\ exists r, r ∈ data /\ r !! "VpcId" = Some v)
  /\ (forall e,
        res = Raise e
        <-> e = KeyError "pop from an empty set"
            /\ 3 <= length subnets
            /\ PostPlan.missing_ids "SubnetId" subnets data = ∅
            /\ Forall (fun r : Dict => r !! "VpcId" = None) data).
Proof.
  intros data res. subst res.
  destruct (Nat.lt_ge_cases (length subnets) 3) as [Hlen|Hlen].
  { rewrite (hook_subnets_short rt self _ st Hlen). cbn [fst].
    split; [tauto|]. split; [done|]. intros e. split; [done|]. lia. }
  destruct (decide (PostPlan.missing_ids "SubnetId" subnets data = ∅)) as [Hm|Hm].
  - rewrite (hook_subnets_resolved rt self _ st Hlen Hm). cbn [fst]. fold data.
    split; [|split].
    + split.
      * intros H. apply popped_ret in H as (v & Hv & _). done.
      * intros [H|H]; [lia|done].
    + intros v H. apply popped_ret in H as (w & [= <-] & Hw).
      split; [done|]. split; [done|]. by apply elem_of_vpcs_of.
    + intros e. rewrite popped_raise, vpcs_of_empty_iff. tauto.
  - rewrite (hook_subnets_missing rt self _ st Hlen Hm). cbn [fst].
    split; [tauto|]. split; [done|]. intros e. split; [done|]. tauto.
Qed.

(** The script's subnet rule returns absent exactly when fewer than 3 ids
    are requested; a requested id that does not resolve never makes it
    raise: it is reported, and the rule goes on.  It raises exactly when
    at least 3 ids were requested and none of them resolves to a record
    with a VPC id, and then with the [KeyError] of the empty pop; a VPC id
    it returns is the VPC id of the record of a requested id. *)
Theorem script_subnets_outcome
    (self : ValidatePlan.AWSApi) (subnets : list string) (st : State) :
  let ec2 := ValidatePlan.ec2_client self in
  let res := ValidatePlan._validate_subnets rt self subnets st in
  (fst res = Ret None <-> length subnets < 3)
  /\ (forall v,
        fst res = Ret (Some v) ->
        3 <= length subnets
        /\ exists id r, id ∈ subnets /\ lookup_subnet ec2 id = Some r
                        /\ r !! "VpcId" = Some v)
  /\ (forall e,
        fst res = Raise e
        <-> e = KeyError "pop from an empty set"
            /\ 3 <= length subnets
            /\ Forall (fun id => forall r, lookup_subnet ec2 id = Some r ->
                                           r !! "VpcId" = None) subnets)
  /\ (3 <= length subnets ->
      forall id, id ∈ subnets -> lookup_subnet ec2 id = None ->
                 "Subnet " +:+ id +:+ " does not exist" ∈ errors (snd res)).
Proof.
  intros ec2 res. subst res.
  destruct (Nat.lt_ge_cases (length subnets) 3) as [Hlen|Hlen].
  { rewrite (script_subnets_short rt self _ st Hlen). cbn [fst].
    split; [tauto|]. split; [done|]. split; [|lia]. intros e. split; [done|]. lia. }
  rewrite (script_subnets_long rt self _ st Hlen). cbn [fst snd errors]. fold ec2.
  assert (Hempty : script_vpcs ec2 subnets = ∅
                   <-> Forall (fun id => forall r, lookup_subnet ec2 id = Some r ->
                                                   r !! "VpcId" = None) subnets).
  { unfold script_vpcs. rewrite vpcs_of_empty_iff, !Forall_forall. split.
    - intros H id Hid r Hr. apply H. apply list_elem_of_omap. eauto.
    - intros H r Hr. apply list_elem_of_omap in Hr as (id & Hid & Hr). eauto. }
  split; [|split; [|split]].
  - split; [|lia]. intros H. by apply popped_ret in H as (v & Hv & _).
  - intros v H. apply popped_ret in H as (w & [= <-] & Hw). split; [done|].
    apply elem_of_vpcs_of in Hw as (r & Hr & Hv).
    apply list_elem_of_omap in Hr as (id & Hid & Hr). by exists id, r.
  - intros e. rewrite popped_raise, Hempty. tauto.
  - intros _ id Hid Hnone. apply elem_of_app. right. apply elem_of_app. left.
    apply list_elem_of_omap. exists id. split; [done|].
    unfold script_subnet_error. by rewrite Hnone.
Qed.

End SubnetOutcome.

(** ** When a rule leaves the report unchanged *)

Section Silent.
Variable rt : SetRuntime.

Lemma app_unchanged (l x : list string) : l ++ x = l <-> x = [].
Proof.
  split; [|intros ->; apply app_nil_r]. intros H.
  apply (app_inv_head l). by rewrite app_nil_r.
Qed.

Lemma hook_subnet_errors_nil (data : list Dict) :
  hook_subnet_errors data = []
  <-> Forall (fun r : Dict => is_Some (r !! "VpcId")) data.
Proof.
  unfold hook_subnet_errors. rewrite omap_nil. apply Forall_proper; [|done].
  intros r. destruct (r !! "VpcId"); split; try done; by intros [? ?].
Qed.

Lemma same_vpc_error_nil (s : gset string) : same_vpc_error s = [] <-> size s <= 1.
Proof.
  unfold same_vpc_error. destruct (Nat.ltb_spec 1 (size s)); split; (done || lia).
Qed.

Lemma popped_singleton (s : gset string) (v : string) :
  popped rt s = Ret (Some v) /\ same_vpc_error s = [] <-> s = {[v]}.
Proof.
  rewrite same_vpc_error_nil. split.
  - intros [Hp Hs]. apply popped_ret in Hp as (w & [= <-] & Hw).
    assert (Hsize : size s = 1).
    { assert (size s ≠ 0); [|lia]. intros H0.
      apply size_empty_iff, leibniz_equiv in H0. set_solver. }
    apply set_eq. intros x. rewrite elem_of_singleton. split.
    + intros Hx. by apply (size_singleton_inv s).
    + by intros ->.
  - intros ->. unfold popped. rewrite set_pop_singleton, size_singleton. split; [done|lia].
Qed.

Lemma hook_group_errors_same (v : string) (data : list Dict) :
  hook_group_errors v data = []
  <-> Forall (fun r : Dict => r !! "VpcId" = Some v) data.
Proof.
  unfold hook_group_errors. rewrite omap_nil. apply Forall_proper; [|done].
  intros r. case_bool_decide as H; split; done.
Qed.

(** The hook's security-group rule never raises and makes exactly one
    batched call; it leaves the report unchanged exactly when no
    requested id is missing from the response and every returned record
    has the supplied VPC id, and otherwise appends at least one
    violation. *)
Theorem hook_groups_silent
    (self : HooksLib.AWSApi) (groups : list string) (vpc_id : string) (st : State) :
  let data := describe_security_groups (HooksLib.ec2_client self) groups in
  let res := PostPlan._validate_security_groups rt self groups vpc_id st in
  fst res = Ret tt
  /\ calls (snd res) = calls st ++ [DescribeSecurityGroups groups]
  /\ (exists es, errors (snd res) = errors st ++ es)
  /\ (errors (snd res) = errors st
      <-> PostPlan.missing_ids "GroupId" groups data = ∅
          /\ Forall (fun r : Dict => r !! "VpcId" = Some vpc_id) data).
Proof.
  intros data res. subst res.
  destruct (decide (PostPlan.missing_ids "GroupId" groups data = ∅)) as [Hm|Hm].
  - rewrite (hook_groups_resolved rt self _ _ st Hm). cbn [fst snd errors calls].
    fold data. split; [done|]. split; [done|]. split; [by eexists|].
    rewrite app_unchanged, hook_group_errors_same. tauto.
  - rewrite (hook_groups_missing rt self _ _ st Hm). cbn [fst snd errors calls].
    split; [done|]. split; [done|]. split; [by eexists|].
    rewrite app_unchanged. split; [done|tauto].
Qed.

Lemma hook_version_run (self : HooksLib.AWSApi) (v : string) :
  exists ev,
    writes (PostPlan._validate_kafka_version self v) (Ret tt) ev [ListKafkaVersions]
    /\ (ev = []
        <-> v ∈ versions_of (list_kafka_versions (HooksLib.kafka_client self))).
Proof.
  unfold writes, PostPlan._validate_kafka_version, bind, versions_of.
  setoid_rewrite get_kafka_versions_run.
  destruct (omap _ (concat _)) as [|w ws] eqn:E.
  - eexists. split; [reflexivity|]. split; [done|]. by intros H%elem_of_nil.
  - case_bool_decide as Hin.
    + exists []. split; [|done]. intros st. unfold ret. cbn.
      by rewrite app_nil_r.
    + eexists. split; [reflexivity|]. split; [done|]. done.
Qed.

Lemma hook_subnets_run (self : HooksLib.AWSApi) (subnets : list string) :
  let data := describe_subnets (HooksLib.ec2_client self) subnets in
  exists o es cs,
    writes (PostPlan._validate_subnets rt self subnets) o es cs
    /\ (o = Ret None -> es ≠ [])
    /\ (forall v,
          o = Ret (Some v) /\ es = []
          <-> 3 <= length subnets
              /\ PostPlan.missing_ids "SubnetId" subnets data = ∅
              /\ Forall (fun r : Dict => is_Some (r !! "VpcId")) data
              /\ vpcs_of data = {[v]}).
Proof.
  intros data.
  destruct (Nat.lt_ge_cases (length subnets) 3) as [Hlen|Hlen].
  { exists (Ret None), ["At least 3 subnets are required"], [].
    split; [|split; [done|]].
    - intros st. rewrite (hook_subnets_short rt self _ st Hlen).
      by rewrite app_nil_r.
    - intros v. split; [by intros [? ?]|]. lia. }
  destruct (decide (PostPlan.missing_ids "SubnetId" subnets data = ∅)) as [Hm|Hm].
  - exists (popped rt (vpcs_of data)),
      (hook_subnet_errors data ++ same_vpc_error (vpcs_of data)),
      [DescribeSubnets subnets].
    split; [|split].
    + intros st. by rewrite (hook_subnets_resolved rt self _ st Hlen Hm).
    + intros H. by apply popped_ret in H as (v & Hv & _).
    + intros v. rewrite app_nil, hook_subnet_errors_nil.
      rewrite <- popped_singleton. tauto.
  - eexists (Ret None), _, _.
    split; [intros st; by rewrite (hook_subnets_missing rt self _ st Hlen Hm)|].
    split; [done|]. intros v. split; [by intros [? ?]|]. tauto.
Qed.

End Silent.

(** ** The plans the hook accepts *)

Section HookAccepts.
Import HooksLib PostPlan.
Variable rt : SetRuntime.
Variable self : AWSApi.

Lemma writes_silent (m : M unit) (o : outcome unit) (es : list string)
    (cs : list Call) (st : State) :
  writes m o es cs ->
  (fst (m st) = Ret tt /\ errors (snd (m st)) = errors st) <-> (o = Ret tt /\ es = []).
Proof.
  intros Hw. rewrite Hw. cbn [fst snd errors]. by rewrite app_unchanged.
Qed.

Lemma hook_groups_run (groups : list string) (v : string) :
  let data := describe_security_groups (ec2_client self) groups in
  exists eg,
    writes (_validate_security_groups rt self groups v) (Ret tt) eg
      [DescribeSecurityGroups groups]
    /\ (eg = []
        <-> missing_ids "GroupId" groups data = ∅
            /\ Forall (fun r : Dict => r !! "VpcId" = Some v) data).
Proof.
  intros data.
  destruct (decide (missing_ids "GroupId" groups data = ∅)) as [Hm|Hm].
  - exists (hook_group_errors v data). split.
    + intros st. by rewrite (hook_groups_resolved rt self _ _ st Hm).
    + rewrite hook_group_errors_same. tauto.
  - eexists. split.
    + intros st. by rewrite (hook_groups_missing rt self _ _ st Hm).
    + split; [done|tauto].
Qed.

Lemma truthy_nonempty (v : string) : truthy v = true <-> v ≠ "".
Proof. by destruct v. Qed.

(** One iteration of the loop over a change with an attribute map returns
    with the report unchanged exactly when the map is acceptable. *)
Lemma hook_update_silent (u : ResourceChange) (ch : Change) (a : After) (st : State) :
  change u = Some ch ->
  after ch = Some a ->
  (fst (validate_update rt self u st) = Ret tt
   /\ errors (snd (validate_update rt self u st)) = errors st)
  <-> hook_accepts self a.
Proof.
  intros Hch Haf. unfold validate_update, hook_accepts. rewrite Hch, Haf.
  destruct (hook_version_run self (kafka_version a)) as (ev & Hver & Hev).
  unfold writes in Hver. unfold bind. rewrite !Hver. rewrite <- Hev. clear Hev.
  destruct (broker_node_group_info a) as [|b bs].
  { cbn. split; [by intros [? _]|tauto]. }
  cbn [index0 ret].
  destruct (hook_subnets_run rt self (client_subnets b))
    as (o & es & cs & Hsub & Hnone & Hsome).
  unfold writes in Hsub. rewrite !Hsub. cbn [errors calls].
  destruct o as [[v|]|e].
  - destruct (hook_groups_run (security_groups b) v) as (eg & Hgrp & Heg).
    unfold writes in Hgrp.
    assert (Hfinal :
      (es = [] /\ (truthy v = true -> eg = []))
      <-> exists w,
            (3 <= length (client_subnets b)
             /\ missing_ids "SubnetId" (client_subnets b)
                  (describe_subnets (ec2_client self) (client_subnets b)) = ∅
             /\ Forall (fun r : Dict => is_Some (r !! "VpcId"))
                  (describe_subnets (ec2_client self) (client_subnets b))
             /\ vpcs_of (describe_subnets (ec2_client self) (client_subnets b))
                = {[w]})
            /\ (w ≠ "" ->
                missing_ids "GroupId" (security_groups b)
                  (describe_security_groups (ec2_client self) (security_groups b))
                = ∅
                /\ Forall (fun r : Dict => r !! "VpcId" = Some w)
                     (describe_security_groups (ec2_client self)
                        (security_groups b)))).
    { rewrite truthy_nonempty, Heg. split.
      - intros [Hes Hg]. exists v. split; [by apply Hsome|done].
      - intros (w & Hw & Hg). apply Hsome in Hw as [[= <-] Hes]. done. }
    destruct (truthy v) eqn:Ht.
    + rewrite !Hgrp. cbn [fst snd errors].
      rewrite <- !app_assoc, app_unchanged, !app_nil.
      split.
      * intros (_ & Hev & Hes & Hg). split; [done|].
        destruct Hfinal as [Hf _]. destruct Hf as (w & Hw & Hgw); [done|].
        destruct Hw as (H1 & H2 & H3 & H4). eauto 10.
      * intros (Hev & H1 & H2 & H3 & w & H4 & Hg).
        destruct Hfinal as [_ Hf]. destruct Hf as [Hes Heg']; [by eauto 10|].
        split; [done|]. split; [done|]. split; [done|]. by apply Heg'.
    + unfold ret. cbn [fst snd errors].
      rewrite <- !app_assoc, app_unchanged, !app_nil.
      split.
      * intros (_ & Hev & Hes). split; [done|].
        destruct Hfinal as [Hf _]. destruct Hf as (w & Hw & Hgw); [done|].
        destruct Hw as (H1 & H2 & H3 & H4). eauto 10.
      * intros (Hev & H1 & H2 & H3 & w & H4 & Hg).
        destruct Hfinal as [_ Hf]. destruct Hf as [Hes Heg']; [by eauto 10|].
        done.
  - unfold ret. cbn [fst snd errors].
    rewrite <- !app_assoc, app_unchanged, !app_nil.
    specialize (Hnone eq_refl). split.
    + by intros (_ & _ & Hes).
    + intros (_ & H1 & H2 & H3 & w & H4 & _).
      assert (Ret None = Ret (Some w) /\ es = []) as [? _]; [|done].
      by apply Hsome.
  - cbn [fst]. split; [by intros [? _]|].
    intros (_ & H1 & H2 & H3 & w & H4 & _).
    assert (Raise e = Ret (Some w) /\ es = []) as [? _]; [|done].
    by apply Hsome.
Qed.

Lemma elem_of_updates (u : ResourceChange) (plan : list ResourceChange) :
  u ∈ msk_instance_updates plan <-> u ∈ plan /\ matching u.
Proof.
  unfold msk_instance_updates.
  rewrite !list_elem_of_In, filter_In, keeps_matching. tauto.
Qed.

Lemma hook_loop_silent (us : list ResourceChange) (st : State) :
  (fst (for_each (validate_update rt self) us st) = Ret tt
   /\ errors (snd (for_each (validate_update rt self) us st)) = errors st)
  <-> Forall (fun u => forall ch a, change u = Some ch -> after ch = Some a ->
                                    hook_accepts self a) us.
Proof.
  revert st. induction us as [|u us IH]; intros st.
  - cbn. split; [constructor|done].
  - rewrite Forall_cons. cbn [for_each].
    destruct (hook_update_behaves rt self u) as (o & es & cs & Hw & _).
    destruct (behaves_for_each hook_exn (validate_update rt self) us
                (hook_update_behaves rt self)) as (o' & es' & cs' & Hw' & _).
    pose proof (writes_silent _ _ _ _ st Hw) as Hu.
    pose proof (fun s => writes_silent _ _ _ _ s Hw') as Hus.
    rewrite <- IH with (st := mkState (errors st ++ es) (calls st ++ cs)).
    rewrite Hus.
    assert (Hacc : (o = Ret tt /\ es = [])
                   <-> (forall ch a, change u = Some ch -> after ch = Some a ->
                                     hook_accepts self a)).
    { rewrite <- Hu. destruct (change u) as [ch|] eqn:Hch.
      - destruct (after ch) as [a|] eqn:Haf.
        + rewrite (hook_update_silent u ch a st Hch Haf). split.
          * intros H ch' a' [= <-] Ha'. rewrite Haf in Ha'. by injection Ha' as <-.
          * intros H. by apply (H ch a).
        + unfold validate_update. rewrite Hch, Haf. cbn. split; [|done].
          intros _ ? ? [= <-]. congruence.
      - unfold validate_update. rewrite Hch. cbn. split; [|done]. by intros _ ? ?. }
    rewrite <- Hacc. unfold bind. rewrite Hw. destruct o as [[]|e].
    + rewrite Hw'. cbn [fst snd errors]. rewrite <- app_assoc, app_unchanged, app_nil.
      tauto.
    + cbn [fst]. split; [by intros [? _]|by intros [[? _] _]].
Qed.

(** The hook's [validate], on a freshly constructed validator, returns
    true if and only if every matching change of the plan that has an
    attribute map is acceptable: its version is in the listing, it names
    at least 3 subnets, all returned, all with a VPC id and all in one
    VPC, and its security groups are all returned and all in that VPC
    (the groups are not looked at when that VPC id is the empty
    string). *)
Theorem hook_validate_true_iff (plan : list ResourceChange) :
  fst (validate rt self plan st0) = Ret true
  <-> forall u ch a,
        u ∈ plan -> matching u -> change u = Some ch -> after ch = Some a ->
        hook_accepts self a.
Proof.
  transitivity
    (fst (for_each (validate_update rt self) (msk_instance_updates plan) st0) = Ret tt
     /\ errors (snd (for_each (validate_update rt self)
                       (msk_instance_updates plan) st0)) = errors st0).
  - unfold validate, bind.
    destruct (for_each _ _ st0) as [[[]|e] s1]; cbn.
    + unfold errors_empty. cbn. destruct (errors s1); split; (done || by intros [_ ?]).
    + split; [done|by intros [? _]].
  - rewrite hook_loop_silent, Forall_forall. split.
    + intros H u ch a Hu Hm. apply H. by apply elem_of_updates.
    + intros H u Hu ch a. apply elem_of_updates in Hu as [Hu Hm]. by apply H.
Qed.

End HookAccepts.

(** ** The plans the script accepts *)

Section ScriptAccepts.
Import ValidatePlan.
Variable rt : SetRuntime.
Variable self : AWSApi.

Local Abbreviation ec2 := (ec2_client self).

Lemma first_unresolved (groups : list string) :
  Forall (fun g => is_Some (lookup_group ec2 g)) groups
  \/ exists before g rest,
       groups = before ++ g :: rest
       /\ Forall (fun g => is_Some (lookup_group ec2 g)) before
       /\ lookup_group ec2 g = None.
Proof.
  induction groups as [|g groups IH]; [by left|].
  destruct (lookup_group ec2 g) as [r|] eqn:Hg.
  - destruct IH as [IH|(before & x & rest & -> & Hb & Hx)].
    + left. constructor; [by rewrite Hg|done].
    + right. exists (g :: before), x, rest. split; [done|]. split; [|done].
      constructor; [by rewrite Hg|done].
  - right. by exists [], g, groups.
Qed.

Lemma script_group_errors_same (v : string) (groups : list string) :
  Forall (fun g => is_Some (lookup_group ec2 g)) groups ->
  script_group_errors ec2 v groups = []
  <-> Forall (fun g => exists r, lookup_group ec2 g = Some r /\ r !! "VpcId" = Some v)
        groups.
Proof.
  intros Hall. unfold script_group_errors. rewrite omap_nil, !Forall_forall.
  rewrite Forall_forall in Hall.
  split; intros H g Hg; specialize (H g Hg); destruct (Hall g Hg) as [r Hr].
  - exists r. split; [done|]. rewrite Hr in H. cbn in H.
    unfold script_group_error in H. destruct (r !! "VpcId") as [w|]; [|done].
    case_bool_decide as Hd; [done|]. f_equal. by destruct (decide (w = v)).
  - destruct H as (r' & Hr' & Hv). rewrite Hr'. cbn. unfold script_group_error.
    rewrite Hv. by rewrite bool_decide_eq_false_2 by auto.
Qed.

(** The script's security-group rule returns exactly when every requested
    id resolves.  Otherwise it raises [SubnetNotFoundError] for the first
    id that does not resolve: the ids before it were looked up and
    checked, the ids after it are never looked up, and no violation is
    recorded for the missing id. *)
Theorem script_groups_outcome (groups : list string) (vpc_id : string) (st : State) :
  let res := _validate_security_groups self groups vpc_id st in
  (fst res = Ret tt <-> Forall (fun g => is_Some (lookup_group ec2 g)) groups)
  /\ (forall e,
        fst res = Raise e ->
        exists before g rest,
          groups = before ++ g :: rest
          /\ Forall (fun g => is_Some (lookup_group ec2 g)) before
          /\ lookup_group ec2 g = None
          /\ e = SubnetNotFoundError g
          /\ errors (snd res) = errors st ++ script_group_errors ec2 vpc_id before
          /\ calls (snd res)
             = calls st
               ++ ((fun id => DescribeSecurityGroups [id]) <$> (before ++ [g]))).
Proof.
  intros res. subst res.
  destruct (first_unresolved groups) as [Hall|(before & g & rest & -> & Hb & Hg)].
  - rewrite script_groups_resolved by (by apply Forall_forall).
    cbn [fst]. split; [done|]. by intros e.
  - rewrite script_groups_first_missing by (by try apply Forall_forall).
    cbn [fst snd errors calls]. split.
    + split; [done|]. intros H. apply Forall_app in H as [_ H].
      apply Forall_cons in H as [[r Hr] _]. congruence.
    + intros e [= <-]. exists before, g, rest. done.
Qed.

Lemma script_subnet_errors_nil (subnets : list string) :
  omap (script_subnet_error ec2) subnets = []
  <-> Forall (fun id => exists r, lookup_subnet ec2 id = Some r
                                  /\ is_Some (r !! "VpcId")) subnets.
Proof.
  rewrite omap_nil. apply Forall_proper; [|done]. intros id.
  unfold script_subnet_error. destruct (lookup_subnet ec2 id) as [r|].
  - destruct (r !! "VpcId") as [v|] eqn:E; split; try done.
    + intros _. exists r. by rewrite E.
    + intros (r' & [= <-] & [? ?]). congruence.
  - split; [done|]. by intros (r & ? & _).
Qed.

Lemma script_subnets_run (subnets : list string) :
  exists o es cs,
    writes (_validate_subnets rt self subnets) o es cs
    /\ (o = Ret None -> es ≠ [])
    /\ (forall v,
          o = Ret (Some v) /\ es = []
          <-> 3 <= length subnets
              /\ Forall (fun id => exists r, lookup_subnet ec2 id = Some r
                                             /\ is_Some (r !! "VpcId")) subnets
              /\ script_vpcs ec2 subnets = {[v]}).
Proof.
  destruct (Nat.lt_ge_cases (length subnets) 3) as [Hlen|Hlen].
  { exists (Ret None), ["At least 3 subnets are required"], [].
    split; [|split; [done|]].
    - intros st. rewrite (script_subnets_short rt self _ st Hlen).
      by rewrite app_nil_r.
    - intros v. split; [by intros [? ?]|]. lia. }
  exists (popped rt (script_vpcs ec2 subnets)),
    (omap (script_subnet_error ec2) subnets ++ same_vpc_error (script_vpcs ec2 subnets)),
    ((fun id => DescribeSubnets [id]) <$> subnets).
  split; [|split].
  - intros st. by rewrite (script_subnets_long rt self _ st Hlen).
  - intros H. by apply popped_ret in H as (v & Hv & _).
  - intros v. rewrite app_nil, script_subnet_errors_nil.
    pose proof (popped_singleton rt (script_vpcs ec2 subnets) v) as Hp. tauto.
Qed.

Lemma script_groups_run (groups : list string) (v : string) :
  exists o eg cs,
    writes (_validate_security_groups self groups v) o eg cs
    /\ (o = Ret tt /\ eg = []
        <-> Forall (fun g => exists r, lookup_group ec2 g = Some r
                                       /\ r !! "VpcId" = Some v) groups).
Proof.
  destruct (first_unresolved groups) as [Hall|(before & g & rest & -> & Hb & Hg)].
  - exists (Ret tt), (script_group_errors ec2 v groups),
      ((fun id => DescribeSecurityGroups [id]) <$> groups).
    split.
    + intros st. by rewrite script_groups_resolved by (by apply Forall_forall).
    + rewrite script_group_errors_same by done. tauto.
  - eexists (Raise _), _, _. split.
    + intros st. by rewrite script_groups_first_missing by (by try apply Forall_forall).
    + split; [by intros [? _]|]. intros H. apply Forall_app in H as [_ H].
      apply Forall_cons in H as [(r & Hr & _) _]. congruence.
Qed.

Lemma script_update_silent (u : ResourceChange) (ch : Change) (a : After)
    (st : State) :
  change u = Some ch ->
  after ch = Some a ->
  (fst (validate_update rt self u st) = Ret tt
   /\ errors (snd (validate_update rt self u st)) = errors st)
  <-> script_accepts self a.
Proof.
  intros Hch Haf. unfold validate_update, script_accepts. rewrite Hch, Haf.
  unfold bind.
  destruct (broker_node_group_info a) as [|b bs].
  { cbn. split; [by intros [? _]|tauto]. }
  cbn [index0 ret].
  destruct (script_subnets_run (client_subnets b))
    as (o & es & cs & Hsub & Hnone & Hsome).
  unfold writes in Hsub. rewrite !Hsub. cbn [errors calls].
  destruct o as [[v|]|e].
  - destruct (script_groups_run (security_groups b) v) as (og & eg & cg & Hgrp & Heg).
    unfold writes in Hgrp.
    destruct (truthy v) eqn:Ht.
    + rewrite !Hgrp. cbn [fst snd errors].
      rewrite <- !app_assoc, app_unchanged, !app_nil.
      apply truthy_nonempty in Ht. split.
      * intros (Hog & Hes & Hg).
        destruct (proj1 (Hsome v)) as (H1 & H2 & H3); [done|].
        split; [done|]. split; [done|]. exists v. split; [done|].
        intros _. apply Heg. split; [|done]. by destruct og as [[]|].
      * intros (H1 & H2 & w & H3 & Hg).
        destruct (proj2 (Hsome w)) as [[= <-] Hes]; [done|].
        destruct (proj2 Heg (Hg Ht)) as [-> ->]. done.
    + unfold ret. cbn [fst snd errors]. rewrite app_unchanged.
      assert (Hv : v = "") by (by destruct v).
      split.
      * intros (_ & Hes).
        destruct (proj1 (Hsome v)) as (H1 & H2 & H3); [done|].
        split; [done|]. split; [done|]. exists v. split; [done|]. by intros ?.
      * intros (H1 & H2 & w & H3 & Hg).
        by destruct (proj2 (Hsome w)) as [[= <-] Hes].
  - unfold ret. cbn [fst snd errors]. rewrite app_unchanged.
    specialize (Hnone eq_refl). split.
    + by intros (_ & Hes).
    + intros (H1 & H2 & w & H3 & _).
      by destruct (proj2 (Hsome w)) as [? _].
  - cbn [fst]. split; [by intros [? _]|].
    intros (H1 & H2 & w & H3 & _).
    by destruct (proj2 (Hsome w)) as [? _].
Qed.

Lemma loop_silent (P : Exn -> Prop) (upd : ResourceChange -> M unit)
    (acc : ResourceChange -> Prop) :
  (forall u, behaves P (upd u)) ->
  (forall u st,
     (fst (upd u st) = Ret tt /\ errors (snd (upd u st)) = errors st) <-> acc u) ->
  forall us st,
    (fst (for_each upd us st) = Ret tt
     /\ errors (snd (for_each upd us st)) = errors st)
    <-> Forall acc us.
Proof.
  intros Hbeh Hacc us. induction us as [|u us IH]; intros st.
  - cbn. split; [constructor|done].
  - rewrite Forall_cons. cbn [for_each].
    destruct (Hbeh u) as (o & es & cs & Hw & _).
    destruct (behaves_for_each P upd us Hbeh) as (o' & es' & cs' & Hw' & _).
    rewrite <- (Hacc u st), <- (IH (mkState (errors st ++ es) (calls st ++ cs))).
    rewrite (writes_silent _ _ _ _ st Hw), (writes_silent _ _ _ _ _ Hw').
    unfold bind. rewrite Hw. destruct o as [[]|e].
    + rewrite Hw'. cbn [fst snd errors]. rewrite <- app_assoc, app_unchanged, app_nil.
      tauto.
    + cbn [fst]. split; [by intros [? _]|by intros [[? _] _]].
Qed.

(** The script's [validate], on a freshly constructed validator, returns
    true if and only if every matching change of the plan that has an
    attribute map is acceptable: it names at least 3 subnets, each
    resolving to a record with a VPC id, all in one VPC, and each of its
    security groups resolves to a record in that VPC (the groups are not
    looked at when that VPC id is the empty string).  The proposed version
    plays no part. *)
Theorem script_validate_true_iff (plan : list ResourceChange) :
  fst (validate rt self plan st0) = Ret true
  <-> forall u ch a,
        u ∈ plan -> matching u -> change u = Some ch -> after ch = Some a ->
        script_accepts self a.
Proof.
  transitivity
    (fst (for_each (validate_update rt self) (msk_instance_updates plan) st0) = Ret tt
     /\ errors (snd (for_each (validate_update rt self)
                       (msk_instance_updates plan) st0)) = errors st0).
  - unfold validate, bind.
    destruct (for_each _ _ st0) as [[[]|e] s1]; cbn.
    + unfold errors_empty. cbn. destruct (errors s1); split; (done || by intros [_ ?]).
    + split; [done|by intros [? _]].
  - rewrite (loop_silent script_exn (validate_update rt self)
               (fun u => forall ch a, change u = Some ch -> after ch = Some a ->
                                      script_accepts self a)).
    + rewrite Forall_forall.
      change (msk_instance_updates plan) with (PostPlan.msk_instance_updates plan).
      split.
      * intros H u ch a Hu Hm. apply H. by apply elem_of_updates.
      * intros H u Hu ch a. apply elem_of_updates in Hu as [Hu Hm]. by apply H.
    + apply script_update_behaves.
    + intros u st. destruct (change u) as [ch|] eqn:Hch.
      * destruct (after ch) as [a|] eqn:Haf.
        -- rewrite (script_update_silent u ch a st Hch Haf). split.
           ++ intros H ch' a' [= <-] Ha'. rewrite Haf in Ha'. by injection Ha' as <-.
           ++ intros H. by apply (H ch a).
        -- unfold validate_update. rewrite Hch, Haf. cbn. split; [|done].
           intros _ ? ? [= <-]. congruence.
      * unfold validate_update. rewrite Hch. cbn. split; [|done]. by intros _ ? ?.
Qed.

End ScriptAccepts.

(** ** Plans compose *)

Section Composition.
Variable rt : SetRuntime.

Lemma updates_app (before rest : list ResourceChange) :
  PostPlan.msk_instance_updates (before ++ rest)
  = PostPlan.msk_instance_updates before ++ PostPlan.msk_instance_updates rest.
Proof. unfold PostPlan.msk_instance_updates. apply List.filter_app. Qed.

Lemma empty_report_app (xs ys : list string) :
  match xs ++ ys with [] => true | _ => false end
  = match xs with [] => true | _ => false end
    && match ys with [] => true | _ => false end.
Proof. by destruct xs, ys. Qed.

(** The run of a loop followed by the emptiness test, over two lists of
    changes in a row. *)
Lemma run_app (P : Exn -> Prop) (upd : ResourceChange -> M unit)
    (us1 us2 : list ResourceChange) :
  (forall u, behaves P (upd u)) ->
  let run := fun us => (for_each upd us ;; errors_empty) st0 in
  (forall e s1, run us1 = (Raise e, s1) -> run (us1 ++ us2) = (Raise e, s1))
  /\ (forall b1 s1 o2 s2,
        run us1 = (Ret b1, s1) ->
        run us2 = (o2, s2) ->
        run (us1 ++ us2)
        = (match o2 with
           | Ret b2 => Ret (b1 && b2)
           | Raise e => Raise e
           end,
           mkState (errors s1 ++ errors s2) (calls s1 ++ calls s2))).
Proof.
  intros Hbeh run. subst run. cbn beta.
  destruct (behaves_for_each P upd us1 Hbeh) as (o1 & es1 & cs1 & Hw1 & _).
  destruct (behaves_for_each P upd us2 Hbeh) as (o2 & es2 & cs2 & Hw2 & _).
  unfold bind. rewrite !for_each_app. unfold bind. rewrite !Hw1, Hw2.
  destruct o1 as [[]|e1].
  - split; [done|]. intros b1 s1 o s2. rewrite Hw2. unfold errors_empty.
    cbn [errors calls app]. intros [= <- <-].
    destruct o2 as [[]|e2]; intros [= <- <-]; cbn [errors calls]; [|done].
    by rewrite empty_report_app.
  - split; [|done]. by intros e s1 [= <- <-].
Qed.

(** Validating two plans in a row as one plan: when the first part
    raises, the whole raises in the same way and the second part is never
    looked at; when it returns, the report and the call trace of the
    whole are those of the first part followed by those of the second,
    and the whole is valid exactly when both parts are.  This holds for
    the hook and for the script. *)
Theorem validate_app
    (hook : HooksLib.AWSApi) (script : ValidatePlan.AWSApi)
    (plan1 plan2 : list ResourceChange) :
  ((forall e s1,
      PostPlan.validate rt hook plan1 st0 = (Raise e, s1) ->
      PostPlan.validate rt hook (plan1 ++ plan2) st0 = (Raise e, s1))
   /\ (forall b1 s1 o2 s2,
         PostPlan.validate rt hook plan1 st0 = (Ret b1, s1) ->
         PostPlan.validate rt hook plan2 st0 = (o2, s2) ->
         PostPlan.validate rt hook (plan1 ++ plan2) st0
         = (match o2 with
            | Ret b2 => Ret (b1 && b2)
            | Raise e => Raise e
            end,
            mkState (errors s1 ++ errors s2) (calls s1 ++ calls s2))))
  /\ ((forall e s1,
         ValidatePlan.validate rt script plan1 st0 = (Raise e, s1) ->
         ValidatePlan.validate rt script (plan1 ++ plan2) st0 = (Raise e, s1))
      /\ (forall b1 s1 o2 s2,
            ValidatePlan.validate rt script plan1 st0 = (Ret b1, s1) ->
            ValidatePlan.validate rt script plan2 st0 = (o2, s2) ->
            ValidatePlan.validate rt script (plan1 ++ plan2) st0
            = (match o2 with
               | Ret b2 => Ret (b1 && b2)
               | Raise e => Raise e
               end,
               mkState (errors s1 ++ errors s2) (calls s1 ++ calls s2)))).
Proof.
  unfold PostPlan.validate, ValidatePlan.validate.
  change ValidatePlan.msk_instance_updates with PostPlan.msk_instance_updates.
  rewrite updates_app. split.
  - apply (run_app hook_exn (PostPlan.validate_update rt hook)).
    apply hook_update_behaves.
  - apply (run_app script_exn (ValidatePlan.validate_update rt script)).
    apply script_update_behaves.
Qed.

End Composition.

(** ** The hook is the script plus the version rule *)

Section HookVersusScript.
Import Inventory.
Variable rtH rtS : SetRuntime.
Variable inv : Inventory.

Lemma missing_describe_iff (key : string) (db : gmap string (option string))
    (ids : list string) :
  key ≠ "VpcId" ->
  PostPlan.missing_ids key ids (describe key db ids) = ∅
  <-> forall id, id ∈ ids -> is_Some (db !! id).
Proof.
  intros Hkey. split; [|by apply missing_describe].
  intros Hm id Hid. destruct (db !! id) as [vpc|] eqn:Hdb; [done|].
  assert (Hin : id ∈ PostPlan.missing_ids key ids (describe key db ids)).
  { unfold PostPlan.missing_ids.
    rewrite elem_of_difference, !elem_of_list_to_set, list_elem_of_omap.
    split; [done|]. intros (r & Hr & Hk).
    apply elem_of_describe in Hr as (id' & vpc & Hdb' & _ & ->).
    rewrite record_key in Hk by done. congruence. }
  rewrite Hm in Hin. set_solver.
Qed.

Lemma describe_forall (key : string) (db : gmap string (option string))
    (ids : list string) (Q : option string -> Prop) :
  key ≠ "VpcId" ->
  (forall id, id ∈ ids -> is_Some (db !! id)) ->
  Forall (fun r : Dict => Q (r !! "VpcId")) (describe key db ids)
  <-> Forall (fun id => Q (vpc_of db id)) ids.
Proof.
  intros Hkey Hex. rewrite !Forall_forall. unfold vpc_of. split.
  - intros H id Hid. destruct (Hex id Hid) as [vpc Hdb]. rewrite Hdb. cbn.
    specialize (H (record key id vpc)). rewrite record_vpc in H by done.
    apply H. apply elem_of_describe. by exists id, vpc.
  - intros H r Hr. apply elem_of_describe in Hr as (id & vpc & Hdb & Hid & ->).
    rewrite record_vpc by done. specialize (H id Hid). by rewrite Hdb in H.
Qed.

Lemma hook_side (key : string) (db : gmap string (option string))
    (ids : list string) (Q : option string -> Prop) :
  key ≠ "VpcId" ->
  ~ Q None ->
  PostPlan.missing_ids key ids (describe key db ids) = ∅
  /\ Forall (fun r : Dict => Q (r !! "VpcId")) (describe key db ids)
  <-> Forall (fun id => Q (vpc_of db id)) ids.
Proof.
  intros Hkey HQ. rewrite missing_describe_iff by done. split.
  - intros [Hex H]. by apply (describe_forall key).
  - intros H.
    assert (Hex : forall id, id ∈ ids -> is_Some (db !! id)).
    { intros id Hid. rewrite Forall_forall in H. specialize (H id Hid).
      unfold vpc_of in H. by destruct (db !! id). }
    split; [done|]. by apply (describe_forall key).
Qed.

Lemma script_side (key : string) (db : gmap string (option string))
    (id : string) (Q : option string -> Prop) :
  key ≠ "VpcId" ->
  ~ Q None ->
  (exists r, head (describe key db [id]) = Some r /\ Q (r !! "VpcId"))
  <-> Q (vpc_of db id).
Proof.
  intros Hkey HQ. rewrite head_describe_single. unfold vpc_of.
  destruct (db !! id) as [vpc|]; cbn.
  - split.
    + intros (r & [= <-] & H). by rewrite record_vpc in H.
    + intros H. eexists. split; [done|]. by rewrite record_vpc.
  - split; [by intros (r & ? & _)|done].
Qed.

(** Over an inventory, the attribute maps the hook accepts are those the
    script accepts whose version is in the listing. *)
Lemma hook_accepts_inventory (a : After) :
  hook_accepts (hook_api inv) a
  <-> kafka_version a ∈ versions inv /\ script_accepts (script_api inv) a.
Proof.
  unfold hook_accepts, script_accepts.
  cbn [HooksLib.kafka_client HooksLib.ec2_client ValidatePlan.ec2_client
         hook_api script_api kafka list_kafka_versions].
  unfold versions_of. rewrite kafka_listing.
  destruct (broker_node_group_info a) as [|b bs]; [tauto|].
  cbn zeta. cbn [ec2 describe_subnets describe_security_groups].
  rewrite (hook_vpcs_inventory "SubnetId") by done.
  rewrite script_vpcs_inventory.
  assert (Hsub :
    PostPlan.missing_ids "SubnetId" (client_subnets b)
      (describe "SubnetId" (subnets inv) (client_subnets b)) = ∅
    /\ Forall (fun r : Dict => is_Some (r !! "VpcId"))
         (describe "SubnetId" (subnets inv) (client_subnets b))
    <-> Forall (fun id => exists r, lookup_subnet (ec2 inv) id = Some r
                                    /\ is_Some (r !! "VpcId")) (client_subnets b)).
  { rewrite (hook_side "SubnetId" _ _ is_Some) by (done || by intros [? ?]).
    apply Forall_proper; [|done]. intros id. symmetry.
    apply (script_side "SubnetId" _ _ is_Some); [done|by intros [? ?]]. }
  assert (Hgrp : forall v,
    PostPlan.missing_ids "GroupId" (security_groups b)
      (describe "GroupId" (groups inv) (security_groups b)) = ∅
    /\ Forall (fun r : Dict => r !! "VpcId" = Some v)
         (describe "GroupId" (groups inv) (security_groups b))
    <-> Forall (fun id => exists r, lookup_group (ec2 inv) id = Some r
                                    /\ r !! "VpcId" = Some v) (security_groups b)).
  { intros v. rewrite (hook_side "GroupId" _ _ (fun o => o = Some v)) by done.
    apply Forall_proper; [|done]. intros id. symmetry.
    by apply (script_side "GroupId" _ _ (fun o => o = Some v)). }
  split.
  - intros (Hv & H1 & H2 & H3 & v & H4 & H5). split; [done|]. split; [done|].
    split; [by apply Hsub|]. exists v. split; [done|].
    intros Hne. by apply Hgrp, H5.
  - intros (Hv & H1 & H2 & v & H3 & H4). split; [done|]. split; [done|].
    apply Hsub in H2 as [H2 H2']. split; [done|]. split; [done|].
    exists v. split; [done|]. intros Hne. by apply Hgrp, H4.
Qed.

Lemma validate_true_loop (upd : ResourceChange -> M unit) (us : list ResourceChange) :
  fst ((for_each upd us ;; errors_empty) st0) = Ret true
  <-> fst (for_each upd us st0) = Ret tt
      /\ errors (snd (for_each upd us st0)) = errors st0.
Proof.
  unfold bind. destruct (for_each upd us st0) as [[[]|e] s1]; cbn.
  - unfold errors_empty. cbn. destruct (errors s1); split; (done || by intros [_ ?]).
  - split; [done|by intros [? _]].
Qed.

(** On the same inventory, the hook returns true exactly when the script
    returns true and every matching change that has an attribute map
    proposes a version of the listing: the two validators differ, on
    plans that pass, by the version rule alone. *)
Theorem hook_true_iff_script_true (plan : list ResourceChange) :
  fst (PostPlan.validate rtH (hook_api inv) plan st0) = Ret true
  <-> fst (ValidatePlan.validate rtS (script_api inv) plan st0) = Ret true
      /\ forall u ch a,
           u ∈ plan -> matching u -> change u = Some ch -> after ch = Some a ->
           kafka_version a ∈ versions inv.
Proof.
  unfold PostPlan.validate, ValidatePlan.validate.
  change ValidatePlan.msk_instance_updates with PostPlan.msk_instance_updates.
  rewrite !validate_true_loop, hook_loop_silent.
  rewrite (loop_silent script_exn (ValidatePlan.validate_update rtS (script_api inv))
             (fun u => forall ch a, change u = Some ch -> after ch = Some a ->
                                    script_accepts (script_api inv) a)).
  - rewrite !Forall_forall. split.
    + intros H. split.
      * intros u Hu ch a Hch Haf.
        exact (proj2 (proj1 (hook_accepts_inventory a) (H u Hu ch a Hch Haf))).
      * intros u ch a Hu Hm Hch Haf.
        assert (Hu' : u ∈ PostPlan.msk_instance_updates plan)
          by (by apply elem_of_updates).
        exact (proj1 (proj1 (hook_accepts_inventory a) (H u Hu' ch a Hch Haf))).
    + intros [Hs Hv] u Hu ch a Hch Haf. apply hook_accepts_inventory. split.
      * apply elem_of_updates in Hu as [Hu Hm]. by apply (Hv u ch a).
      * by apply (Hs u Hu ch).
  - apply script_update_behaves.
  - intros u st. destruct (change u) as [ch|] eqn:Hch.
    + destruct (after ch) as [a|] eqn:Haf.
      * rewrite (script_update_silent rtS _ u ch a st Hch Haf). split.
        -- intros H ch' a' [= <-] Ha'. rewrite Haf in Ha'. by injection Ha' as <-.
        -- intros H. by apply (H ch a).
      * unfold ValidatePlan.validate_update. rewrite Hch, Haf. cbn. split; [|done].
        intros _ ? ? [= <-]. congruence.
    + unfold ValidatePlan.validate_update. rewrite Hch. cbn. split; [|done].
      by intros _ ? ?.
Qed.

End HookVersusScript.

(** ** Calling validate again on the same validator *)

Section Twice.
Variable rt : SetRuntime.

Lemma run_twice (P : Exn -> Prop) (upd : ResourceChange -> M unit)
    (us : list ResourceChange) (b : bool) (s1 : State) :
  (forall u, behaves P (upd u)) ->
  (for_each upd us ;; errors_empty) st0 = (Ret b, s1) ->
  (for_each upd us ;; errors_empty) s1
  = (Ret b, mkState (errors s1 ++ errors s1) (calls s1 ++ calls s1)).
Proof.
  intros Hbeh. destruct (behaves_for_each P upd us Hbeh) as (o & es & cs & Hw & _).
  unfold bind. rewrite !Hw. destruct o as [[]|e]; [|done].
  unfold errors_empty. cbn [errors calls app]. intros [= <- <-]. cbn [errors calls].
  by destruct es.
Qed.

(** Neither validator resets its report: when [validate] has returned on a
    fresh validator, calling it again on the same object gives the same
    verdict and leaves the report with every violation twice, and the
    call trace with every call twice. *)
Theorem validate_twice
    (hook : HooksLib.AWSApi) (script : ValidatePlan.AWSApi)
    (plan : list ResourceChange) :
  (forall b s1,
     PostPlan.validate rt hook plan st0 = (Ret b, s1) ->
     PostPlan.validate rt hook plan s1
     = (Ret b, mkState (errors s1 ++ errors s1) (calls s1 ++ calls s1)))
  /\ (forall b s1,
        ValidatePlan.validate rt script plan st0 = (Ret b, s1) ->
        ValidatePlan.validate rt script plan s1
        = (Ret b, mkState (errors s1 ++ errors s1) (calls s1 ++ calls s1))).
Proof.
  split; intros b s1.
  - apply (run_twice hook_exn). apply hook_update_behaves.
  - apply (run_twice script_exn). apply script_update_behaves.
Qed.

End Twice.

Lemma validate_twice_witness :
  PostPlan.validate Runtime.first_elem (Inventory.hook_api Examples.inv)
    Examples.plan
    (snd (PostPlan.validate Runtime.first_elem (Inventory.hook_api Examples.inv)
            Examples.plan st0))
  = (Ret false,
     mkState
       (["All subnets must belong to the same VPC";
         "Security group sg-2 does not belong to the same VPC as the subnets"]
        ++ ["All subnets must belong to the same VPC";
            "Security group sg-2 does not belong to the same VPC as the subnets"])
       ([ListKafkaVersions; DescribeSubnets Examples.one_vpc;
         DescribeSecurityGroups ["sg-1"]; ListKafkaVersions;
         DescribeSubnets Examples.two_vpcs; DescribeSecurityGroups ["sg-1"; "sg-2"]]
        ++ [ListKafkaVersions; DescribeSubnets Examples.one_vpc;
            DescribeSecurityGroups ["sg-1"]; ListKafkaVersions;
            DescribeSubnets Examples.two_vpcs;
            DescribeSecurityGroups ["sg-1"; "sg-2"]])).
Proof.
  apply (proj1 (validate_twice Runtime.first_elem (Inventory.hook_api Examples.inv)
                  (Inventory.script_api Examples.inv) Examples.plan)
           false
           (mkState
              ["All subnets must belong to the same VPC";
               "Security group sg-2 does not belong to the same VPC as the subnets"]
              [ListKafkaVersions; DescribeSubnets Examples.one_vpc;
               DescribeSecurityGroups ["sg-1"]; ListKafkaVersions;
               DescribeSubnets Examples.two_vpcs;
               DescribeSecurityGroups ["sg-1"; "sg-2"]])).
  vm_compute. reflexivity.
Defined.

(** ** The theorems above on the example inventory *)

Lemma hook_validate_true_iff_witness :
  hook_accepts (Inventory.hook_api Examples.inv)
    (Examples.attributes "2.8.1" Examples.one_vpc ["sg-1"]).
Proof.
  apply (proj1 (hook_validate_true_iff Runtime.first_elem
                  (Inventory.hook_api Examples.inv)
                  [Examples.create_cluster "2.8.1" Examples.one_vpc ["sg-1"]]))
    with (u := Examples.create_cluster "2.8.1" Examples.one_vpc ["sg-1"])
         (ch := Examples.creation "2.8.1" Examples.one_vpc ["sg-1"]).
  - vm_compute. reflexivity.
  - left.
  - split; [reflexivity|]. eexists. split; [reflexivity|]. left.
  - reflexivity.
  - reflexivity.
Defined.

Lemma script_validate_true_iff_witness :
  script_accepts (Inventory.script_api Examples.inv)
    (Examples.attributes "99.99.99" Examples.one_vpc ["sg-1"]).
Proof.
  apply (proj1 (script_validate_true_iff Runtime.first_elem
                  (Inventory.script_api Examples.inv)
                  [Examples.create_cluster "99.99.99" Examples.one_vpc ["sg-1"]]))
    with (u := Examples.create_cluster "99.99.99" Examples.one_vpc ["sg-1"])
         (ch := Examples.creation "99.99.99" Examples.one_vpc ["sg-1"]).
  - vm_compute. reflexivity.
  - left.
  - split; [reflexivity|]. eexists. split; [reflexivity|]. left.
  - reflexivity.
  - reflexivity.
Defined.

Lemma hook_true_iff_script_true_witness :
  fst (ValidatePlan.validate Runtime.first_elem (Inventory.script_api Examples.inv)
         [Examples.create_cluster "2.8.1" Examples.one_vpc ["sg-1"]] st0)
  = Ret true
  /\ forall u ch a,
       u ∈ [Examples.create_cluster "2.8.1" Examples.one_vpc ["sg-1"]] ->
       matching u -> change u = Some ch -> after ch = Some a ->
       kafka_version a ∈ Inventory.versions Examples.inv.
Proof.
  apply (proj1 (hook_true_iff_script_true Runtime.first_elem Runtime.first_elem
                  Examples.inv
                  [Examples.create_cluster "2.8.1" Examples.one_vpc ["sg-1"]])).
  vm_compute. reflexivity.
Defined.

Lemma validate_app_witness :
  PostPlan.validate Runtime.first_elem (Inventory.hook_api Examples.inv)
    ([Examples.create_cluster "2.8.1" Examples.one_vpc ["sg-1"]]
     ++ [Examples.create_cluster "3.6.0" Examples.one_vpc ["sg-2"]]) st0
  = (Ret (true && false),
     mkState
       ([] ++ ["Security group sg-2 does not belong to the same VPC as the subnets"])
       ([ListKafkaVersions; DescribeSubnets Examples.one_vpc;
         DescribeSecurityGroups ["sg-1"]]
        ++ [ListKafkaVersions; DescribeSubnets Examples.one_vpc;
            DescribeSecurityGroups ["sg-2"]])).
Proof.
  apply (proj2 (proj1 (validate_app Runtime.first_elem
                         (Inventory.hook_api Examples.inv)
                         (Inventory.script_api Examples.inv)
                         [Examples.create_cluster "2.8.1" Examples.one_vpc ["sg-1"]]
                         [Examples.create_cluster "3.6.0" Examples.one_vpc ["sg-2"]]))
           true
           (mkState []
              [ListKafkaVersions; DescribeSubnets Examples.one_vpc;
               DescribeSecurityGroups ["sg-1"]])
           (Ret false)
           (mkState
              ["Security group sg-2 does not belong to the same VPC as the subnets"]
              [ListKafkaVersions; DescribeSubnets Examples.one_vpc;
               DescribeSecurityGroups ["sg-2"]])).
  - vm_compute. reflexivity.
  - vm_compute. reflexivity.
Defined.
